(** * ThinkDeeper: the reasoning-length-enforcing decode controller of optillm

    Shallow embedding of
    - [src/optillm/thinkdeeper.py]: the simulated (word based) variant,
      module [Simulated];
    - [src/optillm/plugins/thinkdeeper_plugin.py]: the token-id variant,
      module [Plugin].

    Python exceptions are the [Raised] case of [outcome], carrying [str(e)].
    The unbounded [while True] loops are fuelled; [OutOfFuel] is never a
    Python behaviour, only the sign that the fuel ran out. *)

From Stdlib Require Import ZArith List String Ascii Bool Lia.
Import ListNotations.
Open Scope string_scope.
Open Scope Z_scope.

(** ** Results of Python code: a value, a raised exception, or no result
    within the fuel given to a [while True] loop. *)
Inductive outcome (A : Type) : Type :=
| Done (a : A)
| Raised (e : string)
| OutOfFuel.
Arguments Done {A} a.
Arguments Raised {A} e.
Arguments OutOfFuel {A}.

Definition obind {A B} (m : outcome A) (k : A -> outcome B) : outcome B :=
  match m with
  | Done a => k a
  | Raised e => Raised e
  | OutOfFuel => OutOfFuel
  end.

Notation "' p <- m ;; k" := (obind m (fun x => match x with p => k end))
  (at level 61, p pattern, m at next level, right associativity).

(** ** Python built-ins on lists and strings *)

(** [seq[i]] with Python's negative indices; [None] is [IndexError]. *)
Definition py_index {A} (seq : list A) (i : Z) : option A :=
  let len := Z.of_nat (List.length seq) in
  if (0 <=? i) && (i <? len) then nth_error seq (Z.to_nat i)
  else if (- len <=? i) && (i <? 0) then nth_error seq (Z.to_nat (len + i))
  else None.

(** A Python [str] is a sequence of code points; a Rocq [string] holds
    its UTF-8 bytes. [is_cont] recognises a continuation byte. *)
Definition is_cont (c : ascii) : bool :=
  let k := nat_of_ascii c in ((128 <=? k) && (k <? 192))%nat.

(** The bytes of each code point, in order: a continuation byte joins the
    code point of the byte before it. *)
Fixpoint code_points (l : list ascii) : list (list ascii) :=
  match l with
  | [] => []
  | c :: rest =>
      match code_points rest with
      | [] => [[c]]
      | u :: us =>
          match u with
          | d :: _ => if is_cont d then (c :: u) :: us else [c] :: u :: us
          | [] => [c] :: u :: us
          end
      end
  end.

Definition py_chars (s : string) : list (list ascii) := code_points (list_ascii_of_string s).

(** [str.isspace] on one code point (Python's [Py_UNICODE_ISSPACE]):
    U+0009-000D, U+001C-001F, U+0020, U+0085, U+00A0, U+1680,
    U+2000-200A, U+2028, U+2029, U+202F, U+205F and U+3000, in UTF-8. *)
Definition py_isspace (u : list ascii) : bool :=
  match map nat_of_ascii u with
  | [k] => ((9 <=? k) && (k <=? 13)) || ((28 <=? k) && (k <=? 32))
  | [a; b] => (a =? 194) && ((b =? 133) || (b =? 160))
  | [a; b; c] =>
      ((a =? 225) && (b =? 154) && (c =? 128))
      || ((a =? 226) && (b =? 128)
          && (((128 <=? c) && (c <=? 138)) || (c =? 168) || (c =? 169) || (c =? 175)))
      || ((a =? 226) && (b =? 129) && (c =? 159))
      || ((a =? 227) && (b =? 128) && (c =? 128))
  | _ => false
  end%nat.

(** [s.split()] with no separator: maximal runs of non-space code points. *)
Fixpoint py_split_aux (us : list (list ascii)) (cur : list ascii) : list (list ascii) :=
  match us with
  | [] => match cur with [] => [] | _ => [cur] end
  | u :: us' =>
      if py_isspace u then
        match cur with
        | [] => py_split_aux us' []
        | _ => cur :: py_split_aux us' []
        end
      else py_split_aux us' (cur ++ u)
  end.

Definition py_split (s : string) : list string :=
  map string_of_list_ascii (py_split_aux (py_chars s) []).

(** [len(s.split())] *)
Definition word_count (s : string) : Z := Z.of_nat (List.length (py_split s)).

(** [sep.join(l)] *)
Fixpoint py_join (sep : string) (l : list string) : string :=
  match l with
  | [] => EmptyString
  | [x] => x
  | x :: xs => x ++ sep ++ py_join sep xs
  end.

Fixpoint lstrip_list (us : list (list ascii)) : list (list ascii) :=
  match us with
  | u :: us' => if py_isspace u then lstrip_list us' else us
  | [] => []
  end.

(** [s.strip()] *)
Definition py_strip (s : string) : string :=
  string_of_list_ascii (List.concat (rev (lstrip_list (rev (lstrip_list (py_chars s)))))).

(** [len(s)]: the number of code points. *)
Definition py_len (s : string) : nat := List.length (py_chars s).

(** [s[k:]] for [k >= 0] *)
Definition py_drop (k : nat) (s : string) : string :=
  string_of_list_ascii (List.concat (skipn k (py_chars s))).

(** [seq[i:]]: a negative [i] counts from the end, and [-0] is [0]. *)
Definition py_slice_from {A} (seq : list A) (i : Z) : list A :=
  let len := Z.of_nat (List.length seq) in
  let start := if i <? 0 then Z.max (len + i) 0 else Z.min i len in
  skipn (Z.to_nat start) seq.

(** [needle in hay] on strings: [needle] occurs at some position of [hay]. *)
Fixpoint py_contains (needle hay : string) : bool :=
  String.prefix needle hay
  || match hay with
     | EmptyString => false
     | String _ hay' => py_contains needle hay'
     end.

(** [max(xs)] raises [ValueError] on an empty sequence. *)
Definition py_max (xs : list Z) : outcome Z :=
  match xs with
  | [] => Raised "max() arg is an empty sequence"
  | x :: xs' => Done (fold_left Z.max xs' x)
  end.

(** ** The [random] module, as an injected generator state [R].

    [random] is [random.random()]: a float [k / 2^53] represented by [k];
    [randbelow n] is [Random._randbelow(n)]. Nothing is assumed about
    either: a draw the code cannot use shows up as the [IndexError] that
    the indexing in [random.choice] would raise. *)
Class PyRandom (R : Type) := {
  random : R -> Z * R;
  randbelow : Z -> R -> Z * R
}.

(** [random.random() < 0.3], with [0.3] the double [5404319552844595 / 2^54]. *)
Definition lt_0_3 (k : Z) : bool := 2 * k <? 5404319552844595.

(** [random.random() < 0.1], with [0.1] the double [3602879701896397 / 2^55]. *)
Definition lt_0_1 (k : Z) : bool := 4 * k <? 3602879701896397.

Section Choice.
Context {R : Type} `{PyRandom R}.

(** [random.choice(seq)] = [seq[self._randbelow(len(seq))]] *)
Definition py_choice {A} (seq : list A) (r : R) : outcome (A * R) :=
  match seq with
  | [] => Raised "Cannot choose from an empty sequence"
  | _ =>
      let (i, r') := randbelow (Z.of_nat (List.length seq)) r in
      match py_index seq i with
      | Some x => Done (x, r')
      | None => Raised "list index out of range"
      end
  end.

End Choice.

(** A scripted generator (the fixed sequence of draws of a test). *)
Definition Script := list Z.
#[export] Instance script_random : PyRandom Script := {
  random := fun s => match s with [] => (0, []) | k :: s' => (k, s') end;
  randbelow := fun _ s => match s with [] => (0, []) | k :: s' => (k, s') end
}.

(** * The simulated variant: [src/optillm/thinkdeeper.py] *)
Module Simulated.

Record config := {
  min_thinking_tokens : Z;
  max_thinking_tokens : Z;
  max_thoughts : Z;
  prefill : string;
  start_think_token : string;
  end_think_token : string;
  thought_switch_tokens : list string
}.

Definition DEFAULT_CONFIG : config := {|
  min_thinking_tokens := 1024;
  max_thinking_tokens := 4196;
  max_thoughts := 64;
  prefill := "";
  start_think_token := "<think>";
  end_think_token := "</think>";
  thought_switch_tokens := ["Wait,"; "Alternatively,"]
|}.

(** A request config: the recognised keys it sets. *)
Record request := {
  req_min_thinking_tokens : option Z;
  req_max_thinking_tokens : option Z;
  req_max_thoughts : option Z;
  req_prefill : option string;
  req_start_think_token : option string;
  req_end_think_token : option string;
  req_thought_switch_tokens : option (list string)
}.

Definition override {A} (o : option A) (d : A) : A :=
  match o with Some v => v | None => d end.

(** [config = DEFAULT_CONFIG.copy()] then the keys of [request_config]
    that are keys of [DEFAULT_CONFIG]; the constructor's
    [{**DEFAULT_CONFIG, **config}] changes nothing after that. *)
Definition resolve (rq : option request) : config :=
  match rq with
  | None => DEFAULT_CONFIG
  | Some q => {|
      min_thinking_tokens := override (req_min_thinking_tokens q) (min_thinking_tokens DEFAULT_CONFIG);
      max_thinking_tokens := override (req_max_thinking_tokens q) (max_thinking_tokens DEFAULT_CONFIG);
      max_thoughts := override (req_max_thoughts q) (max_thoughts DEFAULT_CONFIG);
      prefill := override (req_prefill q) (prefill DEFAULT_CONFIG);
      start_think_token := override (req_start_think_token q) (start_think_token DEFAULT_CONFIG);
      end_think_token := override (req_end_think_token q) (end_think_token DEFAULT_CONFIG);
      thought_switch_tokens := override (req_thought_switch_tokens q) (thought_switch_tokens DEFAULT_CONFIG)
    |}
  end.

(** The processor object: its config, [self.thought_count] and
    [self.max_sequence_length]. *)
Record processor := {
  proc_config : config;
  proc_thought_count : Z;
  max_sequence_length : Z
}.

(** [ThinkDeeperProcessor.__init__]: the only computation that can fail is
    [max(len(t.split()) for t in self.thought_switch_tokens)]. *)
Definition init (cfg : config) : outcome processor :=
  ' m <- py_max (map word_count (thought_switch_tokens cfg)) ;;
  Done {| proc_config := cfg; proc_thought_count := 0; max_sequence_length := m |}.

(** [ThinkDeeperProcessor.is_thought_switch]: [self.current_text] is
    passed in; [text_chunk] is not read by the method. *)
Definition is_thought_switch (p : processor) (current_text : list string) (text_chunk : string)
  : bool :=
  let last_words := py_join " " (py_slice_from current_text (- max_sequence_length p)) in
  existsb (fun switch => py_contains switch last_words)
          (thought_switch_tokens (proc_config p)).

Definition response_vocabulary : list string :=
  ["Let’s consider"; "This means"; "So,"; "Therefore,";
   "If we think about it,"; "The next step is"; "That leads to"].

Definition step_objects : list string := ["this"; "that"; "the issue"].

Section Loop.
Context {R : Type} `{PyRandom R}.

(** The loop state: [n_thinking_steps], [self.thought_count],
    [self.current_text], [seen_end_think] and the generator. *)
Record state := {
  n_thinking_steps : Z;
  thought_count : Z;
  current_text : list string;
  seen_end_think : bool;
  rng : R
}.

Inductive exit := ForceEnd | NaturalEnd.

(** [not seen_end_think and (random.random() < 0.3 or n_thinking_steps == 0)] *)
Definition draw_switch (seen : bool) (n : Z) (r : R) : bool * R :=
  if seen then (false, r)
  else let (k, r') := random r in (lt_0_3 k || (n =? 0), r').

(** [f"{random.choice(response_vocabulary)} {random.choice([...])}."] *)
Definition gen_step (r : R) : outcome (string * R) :=
  ' (v, r1) <- py_choice response_vocabulary r ;;
  ' (o, r2) <- py_choice step_objects r1 ;;
  Done (v ++ " " ++ o ++ ".", r2).

(** [n_thinking_steps >= min_thinking_tokens and random.random() < 0.1
     and not seen_end_think] *)
Definition draw_natural_end (cfg : config) (n : Z) (seen : bool) (r : R) : bool * R :=
  if min_thinking_tokens cfg <=? n then
    let (k, r') := random r in (lt_0_1 k && negb seen, r')
  else (false, r).

(** The body of the switch-or-step [if]: lines 72-81. *)
Definition switch_or_step (cfg : config) (st : state) : outcome state :=
  let (sw, r1) := draw_switch (seen_end_think st) (n_thinking_steps st) (rng st) in
  if sw then
    ' (switch, r2) <- py_choice (thought_switch_tokens cfg) r1 ;;
    Done {| n_thinking_steps := n_thinking_steps st;
            thought_count := thought_count st + 1;
            current_text := current_text st ++ [switch];
            seen_end_think := seen_end_think st; rng := r2 |}
  else
    ' (step, r2) <- gen_step r1 ;;
    Done {| n_thinking_steps := n_thinking_steps st + word_count step;
            thought_count := thought_count st;
            current_text := current_text st ++ [step];
            seen_end_think := seen_end_think st; rng := r2 |}.

Definition append_end (cfg : config) (st : state) (r : R) : state :=
  {| n_thinking_steps := n_thinking_steps st;
     thought_count := thought_count st;
     current_text := current_text st ++ [end_think_token cfg];
     seen_end_think := true; rng := r |}.

(** The [while True] loop, lines 60-87. *)
Fixpoint loop (cfg : config) (fuel : nat) (st : state) : outcome (exit * state) :=
  match fuel with
  | O => OutOfFuel
  | S fuel' =>
      let force_end := (max_thinking_tokens cfg <=? n_thinking_steps st)
                       || (max_thoughts cfg <=? thought_count st) in
      if force_end && negb (seen_end_think st) then
        Done (ForceEnd, append_end cfg st (rng st))
      else
        ' st1 <- switch_or_step cfg st ;;
        let (nat_end, r3) := draw_natural_end cfg (n_thinking_steps st1)
                                (seen_end_think st1) (rng st1) in
        if nat_end then Done (NaturalEnd, append_end cfg st1 r3)
        else loop cfg fuel'
               {| n_thinking_steps := n_thinking_steps st1;
                  thought_count := thought_count st1;
                  current_text := current_text st1;
                  seen_end_think := seen_end_think st1; rng := r3 |}
  end.

(** Enough fuel for the loop (proved sufficient by [sim_terminates]). *)
Definition fuel (cfg : config) (tc0 : Z) : nat :=
  (Z.to_nat (max_thinking_tokens cfg) + Z.to_nat (max_thoughts cfg - tc0) + 1)%nat.

(** A message: a dict, as an association list. *)
Definition message := list (string * string).

(** [messages[-1]["content"] if messages and "content" in messages[-1] else ""] *)
Definition extract_prompt (messages : option (list message)) : string :=
  match messages with
  | Some ((_ :: _) as ms) =>
      match py_index ms (-1) with
      | Some m => match find (fun kv => String.eqb (fst kv) "content") m with
                  | Some kv => snd kv
                  | None => ""
                  end
      | None => ""
      end
  | _ => ""
  end.

Definition initial_text (cfg : config) : string :=
  start_think_token cfg ++ String (ascii_of_nat 10) EmptyString ++ prefill cfg.

(** [ThinkDeeperProcessor.reasoning_effort] up to the join: the buffer and
    the final state ([self.thought_count], generator). *)
Definition reasoning_buffer (p : processor) (messages : option (list message)) (r : R)
  : outcome (list string * state) :=
  let cfg := proc_config p in
  let text0 := [initial_text cfg] in
  let prompt := extract_prompt messages in
  ' (_, st) <- loop cfg (fuel cfg (proc_thought_count p))
                 {| n_thinking_steps := 0; thought_count := proc_thought_count p;
                    current_text := text0; seen_end_think := false; rng := r |} ;;
  let text := if seen_end_think st then current_text st
              else (current_text st ++ [end_think_token cfg])%list in
  Done (text, st).

(** [ThinkDeeperProcessor.reasoning_effort]: the response. *)
Definition reasoning_effort (p : processor) (messages : option (list message)) (r : R)
  : outcome string :=
  ' (text, _) <- reasoning_buffer p messages r ;;
  Done (py_strip (py_join " " text)).

(** [thinkdeeper_decode]: exceptions are logged and re-raised. *)
Definition thinkdeeper_decode (messages : option (list message)) (rq : option request) (r : R)
  : outcome string :=
  let cfg := resolve rq in
  ' p <- init cfg ;;
  reasoning_effort p (Some (match messages with Some ms => ms | None => [] end)) r.

End Loop.

End Simulated.

(** * The token-id variant: [src/optillm/plugins/thinkdeeper_plugin.py] *)
Module Plugin.

Record config := {
  replacements : list string;
  min_thinking_tokens : Z;
  prefill : string;
  start_think_token : string;
  end_think_token : string
}.

Definition DEFAULT_CONFIG : config := {|
  replacements := [String (ascii_of_nat 10) "Wait, but";
                   String (ascii_of_nat 10) "Hmm";
                   String (ascii_of_nat 10) "So"];
  min_thinking_tokens := 128;
  prefill := "";
  start_think_token := "<think>";
  end_think_token := "</think>"
|}.

(** [request_config["thinkdeeper_config"]]: the recognised keys it sets. *)
Record request := {
  req_replacements : option (list string);
  req_min_thinking_tokens : option Z;
  req_prefill : option string;
  req_start_think_token : option string;
  req_end_think_token : option string
}.

(** [run]'s config: [DEFAULT_CONFIG.copy()] updated with the valid keys. *)
Definition resolve (rq : option request) : config :=
  match rq with
  | None => DEFAULT_CONFIG
  | Some q => {|
      replacements := Simulated.override (req_replacements q) (replacements DEFAULT_CONFIG);
      min_thinking_tokens := Simulated.override (req_min_thinking_tokens q) (min_thinking_tokens DEFAULT_CONFIG);
      prefill := Simulated.override (req_prefill q) (prefill DEFAULT_CONFIG);
      start_think_token := Simulated.override (req_start_think_token q) (start_think_token DEFAULT_CONFIG);
      end_think_token := Simulated.override (req_end_think_token q) (end_think_token DEFAULT_CONFIG)
    |}
  end.

(** The tokenizer (an external collaborator): [encode], [decode] and
    [apply_chat_template(messages, continue_final_message)], row 0. *)
Class Tokenizer := {
  encode : string -> list Z;
  decode : list Z -> string;
  apply_chat_template : list (string * string) -> bool -> list Z
}.

(** The language model (an external collaborator) with its state [M]
    (the [DynamicCache] and the torch generator): one forward pass on the
    fed [input_ids] followed by [torch.multinomial] on the last logits.
    It may raise ([Raised]): a backend fault. *)
Class LanguageModel (M : Type) := {
  forward_sample : M -> list Z -> outcome (Z * M);
  eos_token_id : Z
}.

Section WithBackend.
Context `{Tokenizer} {M : Type} `{LanguageModel M} {R : Type} `{PyRandom R}.

(** The processor: its config and the two marker ids. *)
Record processor := {
  proc_config : config;
  start_think_id : Z;
  end_think_id : Z
}.

(** [ThinkDeeperProcessor.__init__]: [tokens[1]] and [tokens[2]] of the
    encoding of [start_think_token + end_think_token]. *)
Definition init (cfg : config) : outcome processor :=
  let tokens := encode (start_think_token cfg ++ end_think_token cfg) in
  match py_index tokens 1 with
  | None => Raised "list index out of range"
  | Some s =>
      match py_index tokens 2 with
      | None => Raised "list index out of range"
      | Some e => Done {| proc_config := cfg; start_think_id := s; end_think_id := e |}
      end
  end.

(** The loop state: the fed [tokens], the model state ([kv] and sampler),
    [n_thinking_tokens], [seen_end_think], [response_chunks], the generator. *)
Record state := {
  tokens : list Z;
  model : M;
  n_thinking_tokens : Z;
  seen_end_think : bool;
  response_chunks : list string;
  rng : R
}.

(** The three branches of the [if]/[elif]/[else] of lines 92-111. *)
Inductive branch := Replace | Stop | Accept.

(** Lines 85-86: the flag after the sampled token. *)
Definition seen_after (p : processor) (seen : bool) (next_token : Z) : bool :=
  seen || (next_token =? end_think_id p).

(** Lines 92-107: which branch the sampled token takes. *)
Definition classify (p : processor) (seen : bool) (n : Z) (next_token : Z) : branch :=
  let seen' := seen_after p seen next_token in
  if (((next_token =? end_think_id p) || (next_token =? eos_token_id))
       && (n <? min_thinking_tokens (proc_config p)))
     || ((next_token =? eos_token_id) && negb seen')
  then Replace
  else if (next_token =? eos_token_id) && seen' then Stop
  else Accept.

(** One iteration after the model produced [next_token] and state [m']. *)
Definition after_token (p : processor) (st : state) (next_token : Z) (m' : M)
  : outcome (branch * state) :=
  let next_str := decode [next_token] in
  let seen' := seen_after p (seen_end_think st) next_token in
  match classify p (seen_end_think st) (n_thinking_tokens st) next_token with
  | Replace =>
      ' (replacement, r') <- py_choice (replacements (proc_config p)) (rng st) ;;
      let replacement_tokens := encode replacement in
      Done (Replace,
            {| tokens := replacement_tokens; model := m';
               n_thinking_tokens := n_thinking_tokens st + Z.of_nat (List.length replacement_tokens);
               seen_end_think := seen';
               response_chunks := response_chunks st ++ [replacement]; rng := r' |})
  | Stop =>
      Done (Stop,
            {| tokens := tokens st; model := m'; n_thinking_tokens := n_thinking_tokens st;
               seen_end_think := seen'; response_chunks := response_chunks st; rng := rng st |})
  | Accept =>
      Done (Accept,
            {| tokens := [next_token]; model := m';
               n_thinking_tokens := n_thinking_tokens st + 1;
               seen_end_think := seen';
               response_chunks := response_chunks st ++ [next_str]; rng := rng st |})
  end.

(** One iteration of the [while True] loop, lines 75-111. *)
Definition step (p : processor) (st : state) : outcome (branch * state) :=
  ' (next_token, m') <- forward_sample (model st) (tokens st) ;;
  after_token p st next_token m'.

Fixpoint loop (p : processor) (fuel : nat) (st : state) : outcome state :=
  match fuel with
  | O => OutOfFuel
  | S fuel' =>
      ' (b, st') <- step p st ;;
      match b with
      | Stop => Done st'
      | _ => loop p fuel' st'
      end
  end.

(** [st2] is the state at the top of some later iteration of the loop
    started in [st]: every iteration in between ends without [break]. *)
Inductive reaches (p : processor) : state -> state -> Prop :=
| reaches_refl st : reaches p st st
| reaches_step st b st1 st2 :
    step p st = Done (b, st1) -> b <> Stop -> reaches p st1 st2 -> reaches p st st2.

Definition initial_state (p : processor) (question : string) (m : M) (r : R) : state :=
  let cfg := proc_config p in
  {| tokens := apply_chat_template
                 [("user", question);
                  ("assistant", start_think_token cfg ++ String (ascii_of_nat 10) EmptyString ++ prefill cfg)]
                 true;
     model := m; n_thinking_tokens := 0; seen_end_think := false;
     response_chunks := []; rng := r |}.

(** [len(self.tokenizer.decode(template_prefix[0]))] *)
Definition prefix_len (question : string) : nat :=
  py_len (decode (apply_chat_template [("user", question)] false)).

(** [ThinkDeeperProcessor.reasoning_effort], with [fuel] iterations. *)
Definition reasoning_effort (p : processor) (fuel : nat) (question : string) (m : M) (r : R)
  : outcome string :=
  ' st <- loop p fuel (initial_state p question m r) ;;
  let full_response := String.concat "" (response_chunks st) in
  Done (py_drop (prefix_len question) full_response).

Definition error_prefix : string := "Error in enhanced thinking process: ".

(** [run], from the loaded tokenizer and model on: every exception of the
    processor is turned into [(error text, 0)]. *)
Definition run (fuel : nat) (initial_query : string) (rq : option request) (m : M) (r : R)
  : outcome (string * Z) :=
  let cfg := resolve rq in
  match (' p <- init cfg ;; reasoning_effort p fuel initial_query m r) with
  | Done response => Done (response, Z.of_nat (List.length (encode response)))
  | Raised e => Done (error_prefix ++ e, 0)
  | OutOfFuel => OutOfFuel
  end.

End WithBackend.

End Plugin.

(** * Test doubles for the external collaborators *)
Module Toy.
Import Plugin.

(** A byte tokenizer with a BOS id [1], an EOS id [2] and the two think
    markers as single ids [1000] and [1001]. *)
Fixpoint enc (fuel : nat) (s : string) : list Z :=
  match fuel with
  | O => []
  | S f =>
      if String.prefix "</think>" s then 1001 :: enc f (substring 8 (String.length s - 8) s)
      else if String.prefix "<think>" s then 1000 :: enc f (substring 7 (String.length s - 7) s)
      else match s with
           | EmptyString => []
           | String c s' => Z.of_nat (nat_of_ascii c) :: enc f s'
           end
  end.

Definition dec1 (t : Z) : string :=
  if t =? 1000 then "<think>"
  else if t =? 1001 then "</think>"
  else if (t =? 1) || (t =? 2) then ""
  else String (ascii_of_nat (Z.to_nat t)) EmptyString.

(** The chat template keeps the message contents only. *)
#[export] Instance toy_tokenizer : Tokenizer := {
  encode := fun s => 1 :: enc (String.length s) s;
  decode := fun ts => String.concat "" (map dec1 ts);
  apply_chat_template := fun msgs _ =>
    1 :: enc (String.length (String.concat "" (map snd msgs))) (String.concat "" (map snd msgs))
}.

(** A model replaying a script of token ids and failing when it runs out. *)
Definition Replay := list Z.
#[export] Instance replay_model : LanguageModel Replay := {
  forward_sample := fun m _ => match m with
                               | t :: m' => Done (t, m')
                               | [] => Raised "CUDA error: device-side assert triggered"
                               end;
  eos_token_id := 2
}.

(** A model that samples the letter [A] forever. *)
Inductive Babbler := babbler.
#[export] Instance babbler_model : LanguageModel Babbler := {
  forward_sample := fun m _ => Done (65, m);
  eos_token_id := 2
}.

(** A generator whose [_randbelow(n)] is the counter modulo [n]. *)
Definition Counter := Z.
#[export] Instance counter_random : PyRandom Counter := {
  random := fun c => (c, c + 1);
  randbelow := fun n c => (c mod n, c + 1)
}.

(** The toy processor for a config. *)
Definition proc (min : Z) (reps : list string) : processor := {|
  proc_config := {| replacements := reps; min_thinking_tokens := min; prefill := "";
                    start_think_token := "<think>"; end_think_token := "</think>" |};
  start_think_id := 1000; end_think_id := 1001 |}.

Definition req (min : Z) : request := {|
  req_replacements := None; req_min_thinking_tokens := Some min; req_prefill := None;
  req_start_think_token := None; req_end_think_token := None |}.

(** The token-id processor with the default replacements. *)
Definition proc_default (min : Z) : processor := proc min (replacements DEFAULT_CONFIG).

(** A request to the simulated variant with [max_thoughts = 2] and
    [min_thinking_tokens = 10]
    above [max_thinking_tokens = 5]. *)
Definition sim_req_min_above_max : Simulated.request := {|
  Simulated.req_min_thinking_tokens := Some 10;
  Simulated.req_max_thinking_tokens := Some 5;
  Simulated.req_max_thoughts := Some 2;
  Simulated.req_prefill := None;
  Simulated.req_start_think_token := None;
  Simulated.req_end_think_token := None;
  Simulated.req_thought_switch_tokens := None |}.

(** A draw of [random.random()] above [0.3]. *)
Definition high : Z := 9000000000000000.

(** The first simulated state of a run with the default config. *)
Definition sim_state0 (r : Script) : Simulated.state := {|
  Simulated.n_thinking_steps := 0;
  Simulated.thought_count := 0;
  Simulated.current_text := [Simulated.initial_text Simulated.DEFAULT_CONFIG];
  Simulated.seen_end_think := false;
  Simulated.rng := r |}.

(** The default simulated config with [min_thinking_tokens = 0]. *)
Definition sim_cfg_min0 : Simulated.config := {|
  Simulated.min_thinking_tokens := 0;
  Simulated.max_thinking_tokens := 4196;
  Simulated.max_thoughts := 64;
  Simulated.prefill := "";
  Simulated.start_think_token := "<think>";
  Simulated.end_think_token := "</think>";
  Simulated.thought_switch_tokens := ["Wait,"; "Alternatively,"] |}.

(** A simulated processor built from [sim_req_min_above_max]. *)
Definition sim_proc_small : Simulated.processor := {|
  Simulated.proc_config := Simulated.resolve (Some sim_req_min_above_max);
  Simulated.proc_thought_count := 0;
  Simulated.max_sequence_length := 1 |}.

(** A simulated config whose only thought switch token is blank. *)
Definition sim_cfg_blank : Simulated.config := {|
  Simulated.min_thinking_tokens := 1;
  Simulated.max_thinking_tokens := 5;
  Simulated.max_thoughts := 2;
  Simulated.prefill := "";
  Simulated.start_think_token := "<think>";
  Simulated.end_think_token := "</think>";
  Simulated.thought_switch_tokens := [" "] |}.

(** A token-id request with empty think markers. *)
Definition req_no_markers : request := {|
  req_replacements := None; req_min_thinking_tokens := None; req_prefill := None;
  req_start_think_token := Some ""; req_end_think_token := Some "" |}.

(** A token-id state before any token, with no generated chunk. *)
Definition plugin_state0 : @state Replay Script := {|
  tokens := []; model := []; n_thinking_tokens := 0; seen_end_think := false;
  response_chunks := []; rng := [0] |}.

End Toy.

(** * Facts about the Python built-ins *)

Lemma py_index_in {A} (l : list A) i x : py_index l i = Some x -> In x l.
Proof.
  unfold py_index.
  destruct ((0 <=? i) && (i <? Z.of_nat (List.length l))); [|destruct (_ && _)];
    intros Hx; try discriminate; eapply nth_error_In; eauto.
Qed.

Lemma py_choice_in {R} `{PyRandom R} {A} (l : list A) r x r' :
  py_choice l r = Done (x, r') -> In x l.
Proof.
  unfold py_choice. destruct l as [|a l']; [discriminate|].
  destruct (randbelow _ r) as [i r1].
  destruct (py_index (a :: l') i) eqn:E; intros Hd; inversion Hd; subst.
  eapply py_index_in; eauto.
Qed.

Lemma py_choice_not_out_of_fuel {R} `{PyRandom R} {A} (l : list A) r :
  py_choice l r <> OutOfFuel.
Proof.
  unfold py_choice. destruct l; [discriminate|].
  destruct randbelow. destruct py_index; discriminate.
Qed.

Lemma py_choice_nil {R} `{PyRandom R} {A} r :
  py_choice (@nil A) r = Raised "Cannot choose from an empty sequence".
Proof. reflexivity. Qed.

(** * Proofs about the simulated variant *)
Module SimulatedFacts.
Import Simulated.

(** The chunks the loop appends between the opening text and the marker. *)
Definition generated_chunk (cfg : config) (x : string) : Prop :=
  In x (thought_switch_tokens cfg)
  \/ exists v o, In v response_vocabulary /\ In o step_objects /\ x = v ++ " " ++ o ++ ".".

Section Facts.
Context {R : Type} `{PyRandom R}.

Lemma gen_step_spec r s r' :
  gen_step r = Done (s, r') ->
  1 <= word_count s
  /\ exists v o, In v response_vocabulary /\ In o step_objects /\ s = v ++ " " ++ o ++ ".".
Proof.
  unfold gen_step.
  destruct (py_choice response_vocabulary r) as [[v r1]| |] eqn:E1; cbn [obind]; try discriminate.
  destruct (py_choice step_objects r1) as [[o r2]| |] eqn:E2; cbn [obind]; try discriminate.
  intros Hd; inversion Hd; subst.
  apply py_choice_in in E1. apply py_choice_in in E2.
  split; [|eauto 6].
  simpl in E1, E2.
  intuition subst; apply Z.leb_le; vm_compute; reflexivity.
Qed.

Lemma draw_natural_end_min cfg n seen r r' :
  draw_natural_end cfg n seen r = (true, r') -> min_thinking_tokens cfg <= n.
Proof.
  unfold draw_natural_end.
  destruct (min_thinking_tokens cfg <=? n) eqn:E.
  - intros _. now apply Z.leb_le.
  - discriminate.
Qed.

(** Lines 72-81: a thought switch bumps [thought_count] only, a reasoning
    step bumps [n_thinking_steps] by its word count. *)
Lemma switch_or_step_spec cfg st st1 :
  switch_or_step cfg st = Done st1 ->
  seen_end_think st1 = seen_end_think st
  /\ ((exists r1,
        draw_switch (seen_end_think st) (n_thinking_steps st) (rng st) = (true, r1)
        /\ exists sw, In sw (thought_switch_tokens cfg)
           /\ current_text st1 = (current_text st ++ [sw])%list
           /\ n_thinking_steps st1 = n_thinking_steps st
           /\ thought_count st1 = thought_count st + 1)
     \/ (exists r1,
        draw_switch (seen_end_think st) (n_thinking_steps st) (rng st) = (false, r1)
        /\ exists s, generated_chunk cfg s
           /\ current_text st1 = (current_text st ++ [s])%list
           /\ n_thinking_steps st1 = n_thinking_steps st + word_count s
           /\ 1 <= word_count s
           /\ thought_count st1 = thought_count st)).
Proof.
  unfold switch_or_step.
  destruct (draw_switch (seen_end_think st) (n_thinking_steps st) (rng st)) as [sw r1] eqn:Ed.
  destruct sw.
  - destruct (py_choice (thought_switch_tokens cfg) r1) as [[x r2]| |] eqn:Ec;
      simpl; try discriminate.
    intros Hd; inversion Hd; subst; simpl.
    split; [reflexivity|]. left. exists r1. split; [reflexivity|].
    exists x. apply py_choice_in in Ec. repeat split; auto.
  - destruct (gen_step r1) as [[x r2]| |] eqn:Eg; simpl; try discriminate.
    intros Hd; inversion Hd; subst; simpl.
    destruct (gen_step_spec _ _ _ Eg) as [Hw Hv].
    split; [reflexivity|]. right. exists r1. split; [reflexivity|].
    exists x. repeat split; auto. right; exact Hv.
Qed.

Lemma switch_or_step_not_out_of_fuel cfg st : switch_or_step cfg st <> OutOfFuel.
Proof.
  unfold switch_or_step, gen_step.
  destruct draw_switch as [[|] r1].
  - destruct (py_choice (thought_switch_tokens cfg) r1) as [[]| |] eqn:E; cbn [obind];
      try discriminate.
    now apply py_choice_not_out_of_fuel in E.
  - destruct (py_choice response_vocabulary r1) as [[v r2]| |] eqn:E; cbn [obind];
      try discriminate; [|now apply py_choice_not_out_of_fuel in E].
    destruct (py_choice step_objects r2) as [[]| |] eqn:E'; cbn [obind]; try discriminate.
    now apply py_choice_not_out_of_fuel in E'.
Qed.

(** The loop runs out of fuel only if the fuel is at most the distance of
    the counters to their caps. *)
Lemma loop_not_out_of_fuel cfg :
  forall k st,
    seen_end_think st = false ->
    (Z.to_nat (max_thinking_tokens cfg - n_thinking_steps st)
     + Z.to_nat (max_thoughts cfg - thought_count st) < k)%nat ->
    loop cfg k st <> OutOfFuel.
Proof.
  induction k as [|f IH]; intros st Hs Hlt; [lia|].
  simpl. rewrite Hs.
  destruct ((max_thinking_tokens cfg <=? n_thinking_steps st)
            || (max_thoughts cfg <=? thought_count st)) eqn:Ef; simpl; [discriminate|].
  apply orb_false_iff in Ef as [E1 E2]. apply Z.leb_gt in E1, E2.
  destruct (switch_or_step cfg st) as [st1| |] eqn:Es; simpl; try discriminate;
    [|exfalso; eapply switch_or_step_not_out_of_fuel; eassumption].
  destruct (switch_or_step_spec _ _ _ Es) as [Hs1 Hc].
  destruct (draw_natural_end cfg (n_thinking_steps st1) (seen_end_think st1) (rng st1))
    as [b r3].
  destruct b; [discriminate|].
  apply IH; simpl; [congruence|].
  destruct Hc as [[r1 [_ [sw [_ [_ [Hn Ht]]]]]] | [r1 [_ [s [_ [_ [Hn [Hw Ht]]]]]]]];
    rewrite Hn, Ht; lia.
Qed.

(** Every exit of the loop appends the end marker and sets the flag. *)
Lemma loop_shape cfg :
  forall k st ex st',
    loop cfg k st = Done (ex, st') ->
    seen_end_think st = false ->
    seen_end_think st' = true
    /\ exists mid, current_text st' = (current_text st ++ mid ++ [end_think_token cfg])%list
       /\ Forall (generated_chunk cfg) mid.
Proof.
  induction k as [|f IH]; intros st ex st' Hl Hs; [discriminate|].
  simpl in Hl. rewrite Hs in Hl.
  destruct ((max_thinking_tokens cfg <=? n_thinking_steps st)
            || (max_thoughts cfg <=? thought_count st)); simpl in Hl.
  - inversion Hl; subst. split; [reflexivity|]. exists []. split; constructor.
  - destruct (switch_or_step cfg st) as [st1| |] eqn:Es; simpl in Hl; try discriminate.
    destruct (switch_or_step_spec _ _ _ Es) as [Hs1 Hc].
    assert (Hx : exists x, generated_chunk cfg x /\ current_text st1 = (current_text st ++ [x])%list).
    { destruct Hc as [[r1 [_ [sw [Hin [Ht _]]]]] | [r1 [_ [s [Hg [Ht _]]]]]].
      - exists sw. split; [left; exact Hin | exact Ht].
      - exists s. split; [exact Hg | exact Ht]. }
    destruct Hx as [x [Hg Hx]].
    destruct (draw_natural_end cfg (n_thinking_steps st1) (seen_end_think st1) (rng st1))
      as [b r3].
    destruct b.
    + inversion Hl; subst. split; [reflexivity|]. exists [x]. simpl.
      split; [rewrite Hx, <- app_assoc; reflexivity | constructor; auto].
    + destruct (IH _ _ _ Hl) as [Hs' [mid [Ht Hf]]]; simpl; [congruence|].
      split; [exact Hs'|]. exists (x :: mid). simpl in Ht. split.
      * rewrite Ht, Hx, <- app_assoc. reflexivity.
      * constructor; auto.
Qed.

(** The natural end (lines 84-87) is only taken at [min_thinking_tokens]. *)
Lemma loop_natural_end_min cfg :
  forall k st st',
    loop cfg k st = Done (NaturalEnd, st') ->
    min_thinking_tokens cfg <= n_thinking_steps st'.
Proof.
  induction k as [|f IH]; intros st st' Hl; [discriminate|].
  simpl in Hl.
  destruct ((max_thinking_tokens cfg <=? n_thinking_steps st)
            || (max_thoughts cfg <=? thought_count st)); simpl in Hl.
  - destruct (negb (seen_end_think st)); simpl in Hl; [discriminate|].
    destruct (switch_or_step cfg st) as [st1| |]; simpl in Hl; try discriminate.
    destruct (draw_natural_end cfg (n_thinking_steps st1) (seen_end_think st1) (rng st1))
      as [b r3] eqn:Ed.
    destruct b.
    + inversion Hl; subst. simpl. eapply draw_natural_end_min; eauto.
    + eapply IH; eauto.
  - destruct (switch_or_step cfg st) as [st1| |]; simpl in Hl; try discriminate.
    destruct (draw_natural_end cfg (n_thinking_steps st1) (seen_end_think st1) (rng st1))
      as [b r3] eqn:Ed.
    destruct b.
    + inversion Hl; subst. simpl. eapply draw_natural_end_min; eauto.
    + eapply IH; eauto.
Qed.

(** The buffer [reasoning_effort] joins. *)
Lemma reasoning_buffer_shape (p : processor) messages (r : R) text st :
  reasoning_buffer p messages r = Done (text, st) ->
  seen_end_think st = true
  /\ exists mid, text = initial_text (proc_config p) :: (mid ++ [end_think_token (proc_config p)])%list
     /\ Forall (generated_chunk (proc_config p)) mid.
Proof.
  unfold reasoning_buffer.
  match goal with |- context [loop ?c ?f ?s0] => destruct (loop c f s0) as [[ex st1]| |] eqn:El end;
    simpl; try discriminate.
  apply loop_shape in El; [|reflexivity].
  destruct El as [Hs [mid [Ht Hf]]].
  rewrite Hs. intros Hd; inversion Hd; subst.
  split; [exact Hs|]. exists mid. split; [exact Ht | exact Hf].
Qed.

End Facts.
End SimulatedFacts.

(** * Proofs about the token-id variant *)
Module PluginFacts.
Import Plugin.

Section Facts.
Context `{Tokenizer} {M : Type} `{LanguageModel M} {R : Type} `{PyRandom R}.

Lemma after_token_flag p st tok m' b st' :
  after_token p st tok m' = Done (b, st') ->
  b = classify p (seen_end_think st) (n_thinking_tokens st) tok
  /\ seen_end_think st' = seen_after p (seen_end_think st) tok.
Proof.
  unfold after_token.
  destruct (classify p (seen_end_think st) (n_thinking_tokens st) tok) eqn:Ec.
  - destruct (py_choice (replacements (proc_config p)) (rng st)) as [[rep r']| |];
      cbn [obind]; try discriminate.
    intros Hd; inversion Hd; subst; auto.
  - intros Hd; inversion Hd; subst; auto.
  - intros Hd; inversion Hd; subst; auto.
Qed.

(** Lines 96-101: the replacement is appended and counted by its encoding. *)
Lemma after_token_replace p st tok m' st' :
  after_token p st tok m' = Done (Replace, st') ->
  exists rep, In rep (replacements (proc_config p))
    /\ response_chunks st' = (response_chunks st ++ [rep])%list
    /\ n_thinking_tokens st' = n_thinking_tokens st + Z.of_nat (List.length (encode rep))
    /\ tokens st' = encode rep.
Proof.
  unfold after_token.
  destruct (classify p (seen_end_think st) (n_thinking_tokens st) tok).
  - destruct (py_choice (replacements (proc_config p)) (rng st)) as [[rep r']| |] eqn:Ec;
      cbn [obind]; try discriminate.
    intros Hd; inversion Hd; subst; simpl.
    exists rep. apply py_choice_in in Ec. auto.
  - discriminate.
  - discriminate.
Qed.

(** Lines 108-110: the sampled token is appended and counted as one. *)
Lemma after_token_accept p st tok m' st' :
  after_token p st tok m' = Done (Accept, st') ->
  response_chunks st' = (response_chunks st ++ [decode [tok]])%list
  /\ n_thinking_tokens st' = n_thinking_tokens st + 1
  /\ tokens st' = [tok].
Proof.
  unfold after_token.
  destruct (classify p (seen_end_think st) (n_thinking_tokens st) tok).
  - destruct (py_choice (replacements (proc_config p)) (rng st)) as [[rep r']| |];
      cbn [obind]; discriminate.
  - discriminate.
  - intros Hd; inversion Hd; subst; simpl; auto.
Qed.

(** An empty replacement list is only noticed at a substitution. *)
Lemma after_token_replace_empty p st tok m' :
  replacements (proc_config p) = [] ->
  classify p (seen_end_think st) (n_thinking_tokens st) tok = Replace ->
  after_token p st tok m' = Raised "Cannot choose from an empty sequence".
Proof.
  intros He Hc. unfold after_token. rewrite Hc, He. reflexivity.
Qed.

Lemma classify_stop p seen n tok :
  classify p seen n tok = Stop -> seen_after p seen tok = true /\ tok = eos_token_id.
Proof.
  unfold classify.
  destruct (seen_after p seen tok), (tok =? end_think_id p), (tok =? eos_token_id) eqn:Ee,
    (n <? min_thinking_tokens (proc_config p)); simpl; try discriminate;
    intros _; split; auto; now apply Z.eqb_eq.
Qed.

Lemma classify_accept_end p seen n tok :
  tok = end_think_id p ->
  classify p seen n tok = Accept -> min_thinking_tokens (proc_config p) <= n.
Proof.
  intros -> Hc. unfold classify, seen_after in Hc.
  rewrite Z.eqb_refl, orb_true_r in Hc. simpl in Hc.
  destruct (n <? min_thinking_tokens (proc_config p)) eqn:E; simpl in Hc.
  - discriminate.
  - now apply Z.ltb_ge.
Qed.

(** The loop only returns at a [Stop], where the flag is set. *)
Lemma loop_done_seen p :
  forall k st st', loop p k st = Done st' -> seen_end_think st' = true.
Proof.
  induction k as [|k IH]; intros st st' Hl; [discriminate|].
  simpl in Hl. unfold step in Hl.
  destruct (forward_sample (model st) (tokens st)) as [[tok m']| |]; cbn [obind] in Hl;
    try discriminate.
  destruct (after_token p st tok m') as [[b st1]| |] eqn:Ea; cbn [obind] in Hl;
    try discriminate.
  destruct (after_token_flag _ _ _ _ _ _ Ea) as [Hb Hs].
  destruct b; try (eapply IH; eassumption).
  inversion Hl; subst. rewrite Hs.
  symmetry in Hb. apply classify_stop in Hb. tauto.
Qed.

(** The loop only returns at the [break] of an iteration, reached through
    iterations that did not [break], in which the model sampled the
    end-of-sequence id while the flag (updated with that id) held. *)
Lemma loop_stop_step p :
  forall k st st', loop p k st = Done st' ->
  exists st0 m', reaches p st st0
    /\ forward_sample (model st0) (tokens st0) = Done (eos_token_id (M:=M), m')
    /\ seen_after p (seen_end_think st0) (eos_token_id (M:=M)) = true
    /\ step p st0 = Done (Stop, st').
Proof.
  induction k as [|k IH]; intros st st' Hl; [discriminate|].
  cbn [loop] in Hl.
  destruct (step p st) as [[b st1]| |] eqn:Es; cbn [obind] in Hl; try discriminate.
  destruct b.
  - destruct (IH _ _ Hl) as [st0 [m' [Hr HH]]]. exists st0, m'. split; [|exact HH].
    eapply reaches_step; [exact Es | discriminate | exact Hr].
  - inversion Hl; subst st1. clear Hl.
    unfold step in Es.
    destruct (forward_sample (model st) (tokens st)) as [[tok m']| |] eqn:Ef;
      cbn [obind] in Es; try discriminate.
    destruct (after_token_flag _ _ _ _ _ _ Es) as [Hb _].
    symmetry in Hb. apply classify_stop in Hb as [Hs Ht]. subst tok.
    exists st, m'. split; [constructor|]. split; [exact Ef|]. split; [exact Hs|].
    unfold step. rewrite Ef. exact Es.
  - destruct (IH _ _ Hl) as [st0 [m' [Hr HH]]]. exists st0, m'. split; [|exact HH].
    eapply reaches_step; [exact Es | discriminate | exact Hr].
Qed.

(** A backend fault at an iteration ends the loop with that exception. *)
Lemma loop_backend_fault p k st e :
  forward_sample (model st) (tokens st) = Raised e ->
  loop p (S k) st = Raised e.
Proof. intros He. simpl. unfold step. rewrite He. reflexivity. Qed.

End Facts.

Import Toy.

(** The babbling model never stops the loop. *)
Lemma babbler_loop (p : processor) :
  end_think_id p <> 65 ->
  forall k (st : @state Toy.Babbler Script),
    model st = Toy.babbler -> loop p k st = OutOfFuel.
Proof.
  intros Hend k. induction k as [|k IH]; intros st Hm; [reflexivity|].
  simpl. unfold step. rewrite Hm. cbn [forward_sample Toy.babbler_model obind].
  unfold after_token.
  assert (Hc : classify p (seen_end_think st) (n_thinking_tokens st) 65 = Accept).
  { unfold classify, seen_after.
    replace (65 =? end_think_id p) with false by (symmetry; apply Z.eqb_neq; congruence).
    reflexivity. }
  rewrite Hc. cbn [obind]. apply IH. reflexivity.
Qed.

End PluginFacts.

(** * The claims *)
Module Claims.
Import Toy.

Section General.
Context `{Plugin.Tokenizer} {M : Type} `{Plugin.LanguageModel M} {R : Type} `{PyRandom R}.

(** C1 (amended). The simulated loop stops within
    [max_thinking_tokens + (max_thoughts - thought_count) + 1] iterations
    (each cap read as 0 when negative), for every sequence of random draws:
    each iteration that does not force the end raises [thought_count] by
    one or [n_thinking_steps] by at least one word. *)
Theorem sim_loop_bounded (cfg : Simulated.config) (tc0 : Z) (text0 : list string) (r : R) :
  Simulated.loop cfg
    (Z.to_nat (Simulated.max_thinking_tokens cfg)
     + Z.to_nat (Simulated.max_thoughts cfg - tc0) + 1)
    {| Simulated.n_thinking_steps := 0; Simulated.thought_count := tc0;
       Simulated.current_text := text0; Simulated.seen_end_think := false;
       Simulated.rng := r |}
  <> OutOfFuel.
Proof.
  apply SimulatedFacts.loop_not_out_of_fuel; simpl; [reflexivity|].
  rewrite Z.sub_0_r. lia.
Qed.

(** C2 (amended). The token-id loop returns only at an end-of-sequence
    sampled while [seen_end_think] holds: a run that returns ends with the
    [break] of an iteration, reached from the start through iterations
    that did not [break], in which the model sampled the end-of-sequence id
    and the flag held; [seen_end_think] becomes true exactly when the model
    samples the end-think id, also when that id is replaced by a phrase;
    the simulated buffer always ends with the end marker. *)
Theorem loop_returns_after_end_proposal :
  (forall (p : Plugin.processor) k (st st' : @Plugin.state M R),
      Plugin.loop p k st = Done st' ->
      Plugin.seen_end_think st' = true
      /\ exists st0 m', Plugin.reaches p st st0
         /\ Plugin.forward_sample (Plugin.model st0) (Plugin.tokens st0)
              = Done (Plugin.eos_token_id (M:=M), m')
         /\ Plugin.seen_after p (Plugin.seen_end_think st0) (Plugin.eos_token_id (M:=M)) = true
         /\ Plugin.step p st0 = Done (Plugin.Stop, st'))
  /\ (forall (p : Plugin.processor) (st : @Plugin.state M R) tok m' b st',
      Plugin.after_token p st tok m' = Done (b, st') ->
      Plugin.seen_end_think st' = Plugin.seen_end_think st || (tok =? Plugin.end_think_id p))
  /\ (forall (p : Simulated.processor) msgs (r : R) text st,
      Simulated.reasoning_buffer p msgs r = Done (text, st) ->
      exists front, text = (front ++ [Simulated.end_think_token (Simulated.proc_config p)])%list).
Proof.
  split; [|split].
  - intros p k st st' Hl. split.
    + exact (PluginFacts.loop_done_seen _ _ _ _ Hl).
    + exact (PluginFacts.loop_stop_step _ _ _ _ Hl).
  - intros p st tok m' b st' Ha.
    apply PluginFacts.after_token_flag in Ha. apply Ha.
  - intros p msgs r text st Hb.
    destruct (SimulatedFacts.reasoning_buffer_shape _ _ _ _ _ Hb) as [_ [mid [Ht _]]].
    exists (Simulated.initial_text (Simulated.proc_config p) :: mid). rewrite Ht. reflexivity.
Qed.

(** C3 (amended). When the model samples the end-think id below
    [min_thinking_tokens], a replacement phrase is appended and counted by
    its encoding instead of the marker, and [seen_end_think] is set. *)
Theorem premature_close_sets_flag (p : Plugin.processor) (st : @Plugin.state M R) tok m' b st' :
  tok = Plugin.end_think_id p ->
  Plugin.n_thinking_tokens st < Plugin.min_thinking_tokens (Plugin.proc_config p) ->
  Plugin.after_token p st tok m' = Done (b, st') ->
  b = Plugin.Replace
  /\ Plugin.seen_end_think st' = true
  /\ exists rep, In rep (Plugin.replacements (Plugin.proc_config p))
     /\ Plugin.response_chunks st' = (Plugin.response_chunks st ++ [rep])%list
     /\ Plugin.n_thinking_tokens st' =
          Plugin.n_thinking_tokens st + Z.of_nat (List.length (Plugin.encode rep)).
Proof.
  intros Ht Hn Ha.
  destruct (PluginFacts.after_token_flag _ _ _ _ _ _ Ha) as [Hb Hs].
  assert (Hr : b = Plugin.Replace).
  { rewrite Hb. unfold Plugin.classify, Plugin.seen_after. subst tok.
    rewrite Z.eqb_refl. apply Z.ltb_lt in Hn. rewrite Hn. reflexivity. }
  clear Hb. subst b. split; [reflexivity|]. split.
  - rewrite Hs. unfold Plugin.seen_after. subst tok. rewrite Z.eqb_refl. apply orb_true_r.
  - destruct (PluginFacts.after_token_replace _ _ _ _ _ Ha) as [rep [Hin [Hc [Hn' _]]]].
    exists rep. auto.
Qed.

(** C4. An end-think id sampled by the model is kept in the buffer (the
    [else] branch) only when [n_thinking_tokens >= min_thinking_tokens];
    the simulated natural end (lines 84-87) appends the marker only when
    [n_thinking_steps >= min_thinking_tokens]. *)
Theorem end_marker_honored_above_min :
  (forall (p : Plugin.processor) (st : @Plugin.state M R) tok m' st',
      tok = Plugin.end_think_id p ->
      Plugin.after_token p st tok m' = Done (Plugin.Accept, st') ->
      Plugin.min_thinking_tokens (Plugin.proc_config p) <= Plugin.n_thinking_tokens st
      /\ Plugin.response_chunks st' = (Plugin.response_chunks st ++ [Plugin.decode [tok]])%list)
  /\ (forall cfg k (st st' : @Simulated.state R),
      Simulated.loop cfg k st = Done (Simulated.NaturalEnd, st') ->
      Simulated.min_thinking_tokens cfg <= Simulated.n_thinking_steps st').
Proof.
  split.
  - intros p st tok m' st' Ht Ha.
    destruct (PluginFacts.after_token_flag _ _ _ _ _ _ Ha) as [Hb _].
    split.
    + eapply PluginFacts.classify_accept_end; [exact Ht | symmetry; exact Hb].
    + apply PluginFacts.after_token_accept in Ha. apply Ha.
  - intros cfg k st st'. apply SimulatedFacts.loop_natural_end_min.
Qed.

(** C5 (amended). No bound is validated. The simulated constructor fails
    only on an empty [thought_switch_tokens] (the [max] of an empty
    sequence) and accepts any bounds; the token-id constructor fails only
    when the encoding of [start_think_token + end_think_token] has fewer
    than three ids, takes ids 1 and 2 as the markers, and accepts an empty
    [replacements], which raises only at the first substitution, inside the
    loop. *)
Theorem no_config_validation :
  (forall cfg, Simulated.thought_switch_tokens cfg <> [] ->
     exists p, Simulated.init cfg = Done p /\ Simulated.proc_config p = cfg)
  /\ (forall cfg, Simulated.thought_switch_tokens cfg = [] ->
     Simulated.init cfg = Raised "max() arg is an empty sequence")
  /\ (forall cfg s e,
     py_index (Plugin.encode (Plugin.start_think_token cfg ++ Plugin.end_think_token cfg)) 1 = Some s ->
     py_index (Plugin.encode (Plugin.start_think_token cfg ++ Plugin.end_think_token cfg)) 2 = Some e ->
     Plugin.init cfg = Done {| Plugin.proc_config := cfg; Plugin.start_think_id := s;
                               Plugin.end_think_id := e |})
  /\ (forall (p : Plugin.processor) (st : @Plugin.state M R) tok m',
     Plugin.replacements (Plugin.proc_config p) = [] ->
     Plugin.classify p (Plugin.seen_end_think st) (Plugin.n_thinking_tokens st) tok = Plugin.Replace ->
     Plugin.after_token p st tok m' = Raised "Cannot choose from an empty sequence").
Proof.
  split; [|split; [|split]].
  - intros cfg Hne. unfold Simulated.init.
    destruct (Simulated.thought_switch_tokens cfg) as [|t ts]; [congruence|].
    simpl. eexists. split; reflexivity.
  - intros cfg He. unfold Simulated.init. rewrite He. reflexivity.
  - intros cfg s e Hs Hee. unfold Plugin.init. rewrite Hs, Hee. reflexivity.
  - intros p st tok m'. apply PluginFacts.after_token_replace_empty.
Qed.

(** C6 (amended). In the token-id variant a replacement adds the length of
    its encoding and a kept token adds one; in the simulated variant a
    thought switch leaves [n_thinking_steps] unchanged (it only bumps
    [thought_count]) and a reasoning step adds its word count. *)
Theorem unit_accounting :
  (forall (p : Plugin.processor) (st : @Plugin.state M R) tok m' st',
     Plugin.after_token p st tok m' = Done (Plugin.Replace, st') ->
     exists rep, In rep (Plugin.replacements (Plugin.proc_config p))
       /\ Plugin.response_chunks st' = (Plugin.response_chunks st ++ [rep])%list
       /\ Plugin.n_thinking_tokens st' =
            Plugin.n_thinking_tokens st + Z.of_nat (List.length (Plugin.encode rep)))
  /\ (forall (p : Plugin.processor) (st : @Plugin.state M R) tok m' st',
     Plugin.after_token p st tok m' = Done (Plugin.Accept, st') ->
     Plugin.n_thinking_tokens st' = Plugin.n_thinking_tokens st + 1)
  /\ (forall cfg (st st1 : @Simulated.state R) r1,
     Simulated.draw_switch (Simulated.seen_end_think st) (Simulated.n_thinking_steps st)
       (Simulated.rng st) = (true, r1) ->
     Simulated.switch_or_step cfg st = Done st1 ->
     Simulated.n_thinking_steps st1 = Simulated.n_thinking_steps st
     /\ Simulated.thought_count st1 = Simulated.thought_count st + 1)
  /\ (forall cfg (st st1 : @Simulated.state R) r1,
     Simulated.draw_switch (Simulated.seen_end_think st) (Simulated.n_thinking_steps st)
       (Simulated.rng st) = (false, r1) ->
     Simulated.switch_or_step cfg st = Done st1 ->
     exists step, Simulated.current_text st1 = (Simulated.current_text st ++ [step])%list
       /\ Simulated.n_thinking_steps st1 = Simulated.n_thinking_steps st + word_count step).
Proof.
  split; [|split; [|split]].
  - intros p st tok m' st' Ha.
    destruct (PluginFacts.after_token_replace _ _ _ _ _ Ha) as [rep [Hin [Hc [Hn _]]]].
    exists rep. auto.
  - intros p st tok m' st' Ha. apply PluginFacts.after_token_accept in Ha. apply Ha.
  - intros cfg st st1 r1 Hd Hs.
    destruct (SimulatedFacts.switch_or_step_spec _ _ _ Hs) as
      [_ [[r2 [_ [sw [_ [_ [Hn Ht]]]]]] | [r2 [Hd' _]]]].
    + auto.
    + rewrite Hd in Hd'. discriminate.
  - intros cfg st st1 r1 Hd Hs.
    destruct (SimulatedFacts.switch_or_step_spec _ _ _ Hs) as
      [_ [[r2 [Hd' _]] | [r2 [_ [s [_ [Ht [Hn _]]]]]]]].
    + rewrite Hd in Hd'. discriminate.
    + exists s. auto.
Qed.

(** C8. When the token-id loop raises (a backend fault raised by the
    model, see [PluginFacts.loop_backend_fault]), [run] returns the error
    text with 0 completion tokens, never the chunks generated so far; the
    simulated [thinkdeeper_decode] re-raises what [reasoning_effort]
    raises. *)
Theorem backend_fault_reported :
  (forall fuel question rq (m : M) (r : R) p e,
     Plugin.init (Plugin.resolve rq) = Done p ->
     Plugin.loop p fuel (Plugin.initial_state p question m r) = Raised e ->
     Plugin.run fuel question rq m r = Done (Plugin.error_prefix ++ e, 0))
  /\ (forall messages rq (r : R) p e,
     Simulated.init (Simulated.resolve rq) = Done p ->
     Simulated.reasoning_effort p (Some (match messages with Some ms => ms | None => [] end)) r
       = Raised e ->
     Simulated.thinkdeeper_decode messages rq r = Raised e).
Proof.
  split.
  - intros fuel question rq m r p e Hi Hl.
    unfold Plugin.run. rewrite Hi. cbn [obind].
    unfold Plugin.reasoning_effort. rewrite Hl. reflexivity.
  - intros messages rq r p e Hi He.
    unfold Simulated.thinkdeeper_decode. rewrite Hi. cbn [obind]. exact He.
Qed.

(** C9. The simulated output does not depend on [messages]: the prompt
    extracted from them is never used. *)
Theorem sim_output_ignores_messages :
  (forall (p : Simulated.processor) m1 m2 (r : R),
     Simulated.reasoning_effort p m1 r = Simulated.reasoning_effort p m2 r)
  /\ (forall m1 m2 rq (r : R),
     Simulated.thinkdeeper_decode m1 rq r = Simulated.thinkdeeper_decode m2 rq r).
Proof.
  split; intros; reflexivity.
Qed.

(** C10. In every run of the simulated [reasoning_effort], the buffer is
    the opening text [start_think_token + "\n" + prefill], then the thought
    switches and reasoning steps, then [end_think_token] appended once as
    the last element; the loop always exits with [seen_end_think] set, so
    the post-loop append never runs. *)
Theorem sim_buffer_shape (p : Simulated.processor) messages (r : R) text st :
  Simulated.reasoning_buffer p messages r = Done (text, st) ->
  Simulated.seen_end_think st = true
  /\ exists mid,
       text = (Simulated.start_think_token (Simulated.proc_config p)
               ++ String (ascii_of_nat 10) EmptyString
               ++ Simulated.prefill (Simulated.proc_config p))
              :: (mid ++ [Simulated.end_think_token (Simulated.proc_config p)])%list
       /\ Forall (SimulatedFacts.generated_chunk (Simulated.proc_config p)) mid.
Proof.
  intros Hb. exact (SimulatedFacts.reasoning_buffer_shape _ _ _ _ _ Hb).
Qed.

End General.
(** ** Counterexamples, witnesses and evaluations at concrete inputs *)

(** C1 fails for the token-id variant, which has no maximum: a model that
    never samples end-of-sequence keeps the loop running for any fuel. *)
Lemma plugin_loop_unbounded :
  ~ (exists k, Plugin.loop (M:=Babbler) (R:=Script) (proc_default 128) k
                 (Plugin.initial_state (proc_default 128) "2+2" babbler []) <> OutOfFuel).
Proof.
  intros [k Hk]. apply Hk.
  apply PluginFacts.babbler_loop; [lazy; discriminate | reflexivity].
Qed.

(** C2 fails: the model samples the end-think id first (replaced, as
    [0 < min_thinking_tokens = 1]) and then end-of-sequence; the run stops
    and the returned text holds no end marker. *)
Lemma plugin_stop_without_end_marker :
  Plugin.reasoning_effort (M:=Replay) (R:=Script) (proc_default 1) 10%nat "" [1001; 2] [0]
    = Done (String (ascii_of_nat 10) "Wait, but")
  /\ String.index 0 "</think>" (String (ascii_of_nat 10) "Wait, but") = None.
Proof. split; reflexivity. Qed.

Lemma loop_returns_after_end_proposal_witness :
  (exists st', Plugin.loop (M:=Replay) (R:=Script) (proc_default 1) 10%nat
                 (Plugin.initial_state (proc_default 1) "" [1001; 2] [0]) = Done st'
               /\ Plugin.seen_end_think st' = true)
  /\ (exists b st', Plugin.after_token (M:=Replay) (R:=Script) (proc_default 1) plugin_state0 1001 [2]
                      = Done (b, st')
                    /\ Plugin.seen_end_think st' = false || (1001 =? 1001)).
Proof.
  split.
  - eexists. split; [lazy; reflexivity|].
    refine (proj1 (proj1 (loop_returns_after_end_proposal (M:=Replay) (R:=Script))
              (proc_default 1) 10%nat (Plugin.initial_state (proc_default 1) "" [1001; 2] [0]) _ _)).
    lazy; reflexivity.
  - do 2 eexists. split; [lazy; reflexivity|].
    refine (proj1 (proj2 (loop_returns_after_end_proposal (M:=Replay) (R:=Script)))
              (proc_default 1) plugin_state0 1001 [2] _ _ _).
    lazy; reflexivity.
Defined.

(** C3 fails: the suppressed end-think id sets [seen_end_think]. *)
Lemma premature_close_flag_set :
  Plugin.seen_end_think plugin_state0 = false
  /\ exists st', Plugin.after_token (M:=Replay) (R:=Script) (proc_default 1) plugin_state0 1001 [2]
                   = Done (Plugin.Replace, st')
                 /\ Plugin.seen_end_think st' = true.
Proof.
  split; [reflexivity|].
  eexists. split; [lazy; reflexivity | lazy; reflexivity].
Qed.

Lemma premature_close_sets_flag_witness :
  exists st', Plugin.after_token (M:=Replay) (R:=Script) (proc_default 1) plugin_state0 1001 [2]
                = Done (Plugin.Replace, st')
              /\ Plugin.seen_end_think st' = true.
Proof.
  eexists. split; [lazy; reflexivity|].
  refine (proj1 (proj2 (premature_close_sets_flag (M:=Replay) (R:=Script)
            (proc_default 1) plugin_state0 1001 [2] Plugin.Replace _ _ _ _)));
    lazy; reflexivity.
Defined.

Lemma end_marker_honored_above_min_witness :
  (exists st', Plugin.after_token (M:=Replay) (R:=Script) (proc_default 0) plugin_state0 1001 [2]
                 = Done (Plugin.Accept, st')
               /\ 0 <= Plugin.n_thinking_tokens plugin_state0)
  /\ (exists st', Simulated.loop (R:=Script) sim_cfg_min0 5%nat (sim_state0 [0; 0; 0])
                    = Done (Simulated.NaturalEnd, st')
                  /\ 0 <= Simulated.n_thinking_steps st').
Proof.
  split.
  - eexists. split; [lazy; reflexivity|].
    refine (proj1 ((proj1 (end_marker_honored_above_min (M:=Replay) (R:=Script)))
              (proc_default 0) plugin_state0 1001 [2] _ _ _)); lazy; reflexivity.
  - eexists. split; [lazy; reflexivity|].
    refine ((proj2 (end_marker_honored_above_min (M:=Replay) (R:=Script)))
              sim_cfg_min0 5%nat (sim_state0 [0; 0; 0]) _ _).
    lazy; reflexivity.
Defined.

(** C5 fails: [min_thinking_tokens = 10 > max_thinking_tokens = 5] is
    accepted and the run returns normally. *)
Lemma min_above_max_accepted :
  Simulated.min_thinking_tokens (Simulated.resolve (Some sim_req_min_above_max))
    > Simulated.max_thinking_tokens (Simulated.resolve (Some sim_req_min_above_max))
  /\ Simulated.thinkdeeper_decode (R:=Script) None (Some sim_req_min_above_max) [0; 0; 0; 0]
     = Done (py_strip (py_join " " [Simulated.initial_text Simulated.DEFAULT_CONFIG;
                                     "Wait,"; "Wait,"; "</think>"])).
Proof. split; reflexivity. Qed.

Lemma no_config_validation_witness :
  (exists p, Simulated.init (Simulated.resolve (Some sim_req_min_above_max)) = Done p
             /\ Simulated.proc_config p = Simulated.resolve (Some sim_req_min_above_max))
  /\ Plugin.init (Plugin.resolve (Some (req 1))) = Done (proc_default 1)
  /\ Plugin.after_token (M:=Replay) (R:=Script) (proc 1 []) plugin_state0 1001 [2]
     = Raised "Cannot choose from an empty sequence".
Proof.
  split; [|split].
  - apply (proj1 (no_config_validation (M:=Replay) (R:=Script))). lazy. discriminate.
  - apply (proj1 (proj2 (proj2 (no_config_validation (M:=Replay) (R:=Script)))));
      lazy; reflexivity.
  - apply (proj2 (proj2 (proj2 (no_config_validation (M:=Replay) (R:=Script)))));
      lazy; reflexivity.
Defined.

(** C6 fails: an injected thought switch of one word leaves
    [n_thinking_steps] at 0. *)
Lemma thought_switch_not_counted :
  exists st1, Simulated.switch_or_step (R:=Script) Simulated.DEFAULT_CONFIG (sim_state0 [0; 0]) = Done st1
    /\ Simulated.current_text st1 = (Simulated.current_text (sim_state0 [0; 0]) ++ ["Wait,"])%list
    /\ Simulated.n_thinking_steps st1 = 0
    /\ word_count "Wait," = 1.
Proof.
  eexists. split; [lazy; reflexivity|]. repeat split; reflexivity.
Qed.

Lemma unit_accounting_witness :
  (exists st', Plugin.after_token (M:=Replay) (R:=Script) (proc_default 1) plugin_state0 1001 [2]
                 = Done (Plugin.Replace, st')
               /\ exists rep, In rep (Plugin.replacements (Plugin.proc_config (proc_default 1)))
                    /\ Plugin.response_chunks st' = (Plugin.response_chunks plugin_state0 ++ [rep])%list
                    /\ Plugin.n_thinking_tokens st' =
                         Plugin.n_thinking_tokens plugin_state0
                         + Z.of_nat (List.length (Plugin.encode rep)))
  /\ (exists st1, Simulated.switch_or_step (R:=Script) Simulated.DEFAULT_CONFIG (sim_state0 [0; 0])
                    = Done st1
                  /\ Simulated.n_thinking_steps st1 = Simulated.n_thinking_steps (sim_state0 [0; 0])
                  /\ Simulated.thought_count st1 = Simulated.thought_count (sim_state0 [0; 0]) + 1).
Proof.
  split.
  - eexists. split; [lazy; reflexivity|].
    refine ((proj1 (unit_accounting (M:=Replay) (R:=Script)))
              (proc_default 1) plugin_state0 1001 [2] _ _). lazy; reflexivity.
  - eexists. split; [lazy; reflexivity|].
    refine ((proj1 (proj2 (proj2 (unit_accounting (M:=Replay) (R:=Script)))))
              Simulated.DEFAULT_CONFIG (sim_state0 [0; 0]) _ [0] _ _); lazy; reflexivity.
Defined.

(** C7: the code slices [prefix_len] characters off the joined chunks,
    which hold only generated text: for the question ["2+2"] (template
    prefix of length 3) the generated ["Hi</think>"] comes back as
    ["/think>"]. *)
Theorem prefix_cut_from_generated_text :
  (exists st, Plugin.loop (M:=Replay) (R:=Script) (proc_default 1) 10%nat
                (Plugin.initial_state (proc_default 1) "2+2" [72; 105; 1001; 2] [0]) = Done st
              /\ String.concat "" (Plugin.response_chunks st) = "Hi</think>")
  /\ Plugin.prefix_len "2+2" = 3%nat
  /\ Plugin.reasoning_effort (M:=Replay) (R:=Script) (proc_default 1) 10%nat "2+2"
       [72; 105; 1001; 2] [0] = Done "/think>".
Proof.
  split; [|split].
  - eexists. split; lazy; reflexivity.
  - reflexivity.
  - reflexivity.
Qed.

(** [run] on a model that fails at its third forward pass; the simulated
    run on a script whose second draw is an index out of range. *)
Lemma backend_fault_reported_witness :
  Plugin.run (M:=Replay) (R:=Script) 10%nat "2+2" (Some (req 1)) [72; 105] [0]
    = Done (Plugin.error_prefix ++ "CUDA error: device-side assert triggered", 0)
  /\ Simulated.thinkdeeper_decode (R:=Script) None None [0; 5]
     = Raised "list index out of range".
Proof.
  split.
  - refine ((proj1 (backend_fault_reported (M:=Replay) (R:=Script)))
              10%nat "2+2" (Some (req 1)) [72; 105] [0] (proc_default 1) _ _ _);
      lazy; reflexivity.
  - refine ((proj2 (backend_fault_reported (M:=Replay) (R:=Script)))
              None None [0; 5]
              {| Simulated.proc_config := Simulated.DEFAULT_CONFIG;
                 Simulated.proc_thought_count := 0; Simulated.max_sequence_length := 1 |}
              "list index out of range" _ _); lazy; reflexivity.
Defined.

Lemma sim_buffer_shape_witness :
  exists text st, Simulated.reasoning_buffer (R:=Script) sim_proc_small None [0; 0; 0; 0]
                    = Done (text, st)
                  /\ Simulated.seen_end_think st = true.
Proof.
  do 2 eexists. split; [lazy; reflexivity|].
  refine (proj1 (sim_buffer_shape (R:=Script) sim_proc_small None [0; 0; 0; 0] _ _ _)).
  lazy; reflexivity.
Defined.

End Claims.

(** * Further properties of the two variants *)
Module Extras.

(** ** Strings, joins and substrings *)

Lemma str_app_assoc (a b c : string) : (a ++ b) ++ c = a ++ (b ++ c).
Proof. induction a as [|x a IH]; simpl; [reflexivity | now rewrite IH]. Qed.

Lemma list_ascii_of_string_app (a b : string) :
  list_ascii_of_string (a ++ b) = (list_ascii_of_string a ++ list_ascii_of_string b)%list.
Proof. induction a as [|x a IH]; simpl; [reflexivity | now rewrite IH]. Qed.

Lemma prefix_app (x a b : string) :
  String.prefix x a = true -> String.prefix x (a ++ b) = true.
Proof.
  revert a. induction x as [|c x IH]; intros a Hp; [destruct (a ++ b); reflexivity|].
  destruct a as [|d a]; simpl in *; [discriminate|].
  destruct (ascii_dec c d); [now apply IH | discriminate].
Qed.

Lemma prefix_refl (x : string) : String.prefix x x = true.
Proof.
  induction x as [|c x IH]; [reflexivity|]. simpl.
  destruct (ascii_dec c c); [exact IH | congruence].
Qed.

Lemma prefix_contains (x h : string) : String.prefix x h = true -> py_contains x h = true.
Proof. intros Hp. destruct h; cbn [py_contains]; rewrite Hp; reflexivity. Qed.

Lemma py_contains_app_r (x a b : string) : py_contains x b = true -> py_contains x (a ++ b) = true.
Proof.
  induction a as [|c a IH]; intros Hb; [exact Hb|].
  simpl. rewrite (IH Hb). apply orb_true_r.
Qed.

Lemma py_contains_app_l (x a b : string) : py_contains x a = true -> py_contains x (a ++ b) = true.
Proof.
  induction a as [|c a IH]; intros Ha.
  - simpl in Ha. rewrite orb_false_r in Ha.
    apply prefix_contains. exact (prefix_app x "" b Ha).
  - simpl in Ha. apply orb_true_iff in Ha as [Ha|Ha].
    + apply prefix_contains. exact (prefix_app x (String c a) b Ha).
    + change (String c a ++ b) with (String c (a ++ b)). simpl.
      rewrite (IH Ha). apply orb_true_r.
Qed.

Lemma py_join_cons_ne (sep x : string) (l : list string) :
  l <> [] -> py_join sep (x :: l) = x ++ sep ++ py_join sep l.
Proof. destruct l; [congruence | reflexivity]. Qed.

(** An element of a list occurs in its join. *)
Lemma py_contains_join (sep x : string) (l : list string) :
  In x l -> py_contains x (py_join sep l) = true.
Proof.
  induction l as [|y l IH]; [contradiction|]. intros Hin.
  destruct l as [|z l'].
  - destruct Hin as [<-|[]]. apply prefix_contains, prefix_refl.
  - rewrite py_join_cons_ne by discriminate.
    destruct Hin as [<-|Hin].
    + apply py_contains_app_l, prefix_contains, prefix_refl.
    + apply py_contains_app_r, py_contains_app_r, IH, Hin.
Qed.

Lemma py_join_snoc (sep : string) (l : list string) (y : string) :
  exists m, py_join sep (l ++ [y])%list = m ++ y.
Proof.
  induction l as [|x l [m IH]]; [exists ""; reflexivity|].
  exists (x ++ sep ++ m).
  change ((x :: l) ++ [y])%list with (x :: (l ++ [y]))%list.
  rewrite py_join_cons_ne, IH, !str_app_assoc; [reflexivity|].
  intros Hn. apply app_eq_nil in Hn as [_ Hn]. discriminate.
Qed.

Lemma concat_code_points (l : list ascii) : List.concat (code_points l) = l.
Proof.
  induction l as [|c rest IH]; [reflexivity|]. simpl.
  destruct (code_points rest) as [|u us].
  - simpl in IH. subst rest. reflexivity.
  - destruct u as [|d u']; [|destruct (is_cont d)]; simpl in *; f_equal; exact IH.
Qed.

Lemma code_points_cons_head (c : ascii) (rest : list ascii) :
  exists v us, code_points (c :: rest) = (c :: v) :: us.
Proof.
  simpl. destruct (code_points rest) as [|u us]; [eauto|].
  destruct u as [|d u']; [eauto|]. destruct (is_cont d); eauto.
Qed.

Lemma code_points_snoc (l : list ascii) (e : ascii) :
  is_cont e = false -> code_points (l ++ [e])%list = (code_points l ++ [[e]])%list.
Proof.
  intros He. induction l as [|c l IH]; [reflexivity|].
  simpl. rewrite IH. destruct (code_points l) as [|u us].
  - simpl. rewrite He. reflexivity.
  - simpl. destruct u as [|d u']; [reflexivity|]. destruct (is_cont d); reflexivity.
Qed.

Lemma ascii_not_cont (c : ascii) : (nat_of_ascii c < 128)%nat -> is_cont c = false.
Proof.
  intros Hc. unfold is_cont. cbv zeta.
  destruct (128 <=? nat_of_ascii c)%nat eqn:E; [apply Nat.leb_le in E; lia | reflexivity].
Qed.

(** A code point whose first byte is ASCII is that ASCII character. *)
Lemma head_not_space (c : ascii) (v : list ascii) :
  (nat_of_ascii c < 128)%nat -> py_isspace [c] = false -> py_isspace (c :: v) = false.
Proof.
  intros Hc Hs. destruct v as [|d1 [|d2 [|d3 v']]]; [exact Hs| | |].
  - unfold py_isspace. cbn [map].
    replace (nat_of_ascii c =? 194)%nat with false by (symmetry; apply Nat.eqb_neq; lia).
    reflexivity.
  - unfold py_isspace. cbn [map].
    replace (nat_of_ascii c =? 225)%nat with false by (symmetry; apply Nat.eqb_neq; lia).
    replace (nat_of_ascii c =? 226)%nat with false by (symmetry; apply Nat.eqb_neq; lia).
    replace (nat_of_ascii c =? 227)%nat with false by (symmetry; apply Nat.eqb_neq; lia).
    reflexivity.
  - reflexivity.
Qed.

(** [s.strip()] is [s] when [s] starts and ends with an ASCII character
    that is not a space. *)
Lemma py_strip_id (s : string) c rest front e :
  list_ascii_of_string s = c :: rest ->
  (nat_of_ascii c < 128)%nat -> py_isspace [c] = false ->
  list_ascii_of_string s = (front ++ [e])%list ->
  (nat_of_ascii e < 128)%nat -> py_isspace [e] = false ->
  py_strip s = s.
Proof.
  intros H1 Hc Hsc H2 He Hse. unfold py_strip, py_chars.
  assert (Hl : lstrip_list (code_points (list_ascii_of_string s))
               = code_points (list_ascii_of_string s)).
  { rewrite H1. destruct (code_points_cons_head c rest) as [v [us Hv]]. rewrite Hv.
    cbn [lstrip_list]. rewrite head_not_space by assumption. reflexivity. }
  pose proof (ascii_not_cont e He) as Hce.
  rewrite Hl, H2, (code_points_snoc front e Hce), rev_unit.
  cbn [lstrip_list]. rewrite Hse. cbn [rev].
  rewrite rev_involutive, <- (code_points_snoc front e Hce), concat_code_points, <- H2.
  apply string_of_list_ascii_of_string.
Qed.

(** ** The random draws of [random.choice] *)
Section Draws.
Context {R : Type} `{PyRandom R}.

Lemma py_choice_raised {A} (l : list A) r e :
  py_choice l r = Raised e ->
  e = "list index out of range" \/ e = "Cannot choose from an empty sequence".
Proof.
  unfold py_choice. destruct l as [|a l'].
  - intros He. injection He as <-. right; reflexivity.
  - destruct (randbelow _ r) as [i r'].
    destruct (py_index (a :: l') i); intros He; [discriminate|].
    injection He as <-. left; reflexivity.
Qed.

(** [_randbelow(n)] in [[0, n)] makes [random.choice] succeed on a
    non-empty sequence. *)
Lemma py_choice_fair {A} (l : list A) r :
  (forall n r0, 0 < n -> 0 <= fst (randbelow n r0) < n) ->
  l <> [] -> exists x r', py_choice l r = Done (x, r').
Proof.
  intros Hf Hne. destruct l as [|a l']; [congruence|].
  unfold py_choice.
  pose proof (Hf (Z.of_nat (List.length (a :: l'))) r) as Hb.
  destruct (randbelow (Z.of_nat (List.length (a :: l'))) r) as [i r'].
  simpl fst in Hb. specialize (Hb ltac:(simpl; lia)).
  unfold py_index.
  replace ((0 <=? i) && (i <? Z.of_nat (List.length (a :: l')))) with true
    by (symmetry; apply andb_true_iff; split; [apply Z.leb_le | apply Z.ltb_lt]; lia).
  destruct (nth_error (a :: l') (Z.to_nat i)) as [x|] eqn:En; [eauto|].
  apply nth_error_None in En. lia.
Qed.

End Draws.

(** ** The simulated loop *)
Section SimLoop.
Context {R : Type} `{PyRandom R}.

(** At [n_thinking_steps = 0] and before the marker, lines 72-76 always
    pick a thought switch, which leaves [n_thinking_steps] at 0. *)
Lemma switch_or_step_at_zero cfg (st st1 : @Simulated.state R) :
  Simulated.seen_end_think st = false -> Simulated.n_thinking_steps st = 0 ->
  Simulated.switch_or_step cfg st = Done st1 ->
  Simulated.n_thinking_steps st1 = 0
  /\ Simulated.thought_count st1 = Simulated.thought_count st + 1
  /\ Simulated.seen_end_think st1 = false
  /\ exists sw, In sw (Simulated.thought_switch_tokens cfg)
       /\ Simulated.current_text st1 = (Simulated.current_text st ++ [sw])%list.
Proof.
  intros Hs Hn Hst.
  destruct (SimulatedFacts.switch_or_step_spec _ _ _ Hst) as
    [Hs1 [[r1 [_ [sw [Hin [Ht [Hn1 Htc]]]]]] | [r1 [Hd _]]]].
  - rewrite Hn1, Hn. repeat split; [assumption | congruence |]. eauto.
  - exfalso. unfold Simulated.draw_switch in Hd. rewrite Hs, Hn in Hd.
    destruct (random (Simulated.rng st)) as [k r']. simpl in Hd.
    rewrite orb_true_r in Hd. discriminate.
Qed.

(** The loop started at [n_thinking_steps = 0]: only thought switches are
    appended, one per [thought_count] step; with [min_thinking_tokens > 0]
    the end is forced, at [max_thoughts] switches. *)
Lemma loop_from_zero cfg :
  forall k (st : @Simulated.state R) ex st',
    Simulated.loop cfg k st = Done (ex, st') ->
    Simulated.seen_end_think st = false -> Simulated.n_thinking_steps st = 0 ->
    Simulated.n_thinking_steps st' = 0
    /\ (exists mid,
          Simulated.current_text st'
            = (Simulated.current_text st ++ mid ++ [Simulated.end_think_token cfg])%list
          /\ Forall (fun x => In x (Simulated.thought_switch_tokens cfg)) mid
          /\ Z.of_nat (List.length mid) = Simulated.thought_count st' - Simulated.thought_count st)
    /\ (0 < Simulated.min_thinking_tokens cfg ->
        ex = Simulated.ForceEnd
        /\ Simulated.thought_count st'
           = if Simulated.max_thinking_tokens cfg <=? 0 then Simulated.thought_count st
             else Z.max (Simulated.thought_count st) (Simulated.max_thoughts cfg)).
Proof.
  induction k as [|k IH]; intros st ex st' Hl Hs Hn; [discriminate|].
  simpl in Hl. rewrite Hs, Hn in Hl.
  destruct ((Simulated.max_thinking_tokens cfg <=? 0)
            || (Simulated.max_thoughts cfg <=? Simulated.thought_count st)) eqn:Ef;
    simpl in Hl.
  - injection Hl as <- <-. simpl. split; [exact Hn|]. split.
    + exists []. split; [reflexivity|]. split; [constructor | simpl; lia].
    + intros _. split; [reflexivity|].
      destruct (Simulated.max_thinking_tokens cfg <=? 0) eqn:E0; [reflexivity|].
      simpl in Ef. apply Z.leb_le in Ef. lia.
  - apply orb_false_iff in Ef as [E0 E1]. apply Z.leb_gt in E1.
    destruct (Simulated.switch_or_step cfg st) as [st1| |] eqn:Es; simpl in Hl;
      try discriminate.
    destruct (switch_or_step_at_zero cfg st st1 Hs Hn Es)
      as [Hn1 [Htc1 [Hs1 [sw [Hin Ht1]]]]].
    rewrite Hn1, Hs1 in Hl.
    destruct (Simulated.draw_natural_end cfg 0 false (Simulated.rng st1)) as [b r3] eqn:Ed.
    destruct b.
    + injection Hl as <- <-. simpl. split; [exact Hn1|]. split.
      * exists [sw]. rewrite Ht1, <- app_assoc. split; [reflexivity|].
        split; [constructor; auto | simpl; lia].
      * intros Hm. apply SimulatedFacts.draw_natural_end_min in Ed. lia.
    + destruct (IH _ _ _ Hl eq_refl eq_refl) as [Hn' [[mid [Ht [Hf Hlen]]] Hend]].
      simpl in Ht, Hlen, Hend.
      split; [exact Hn'|]. split.
      * exists (sw :: mid). rewrite Ht, Ht1, <- app_assoc. split; [reflexivity|].
        split; [constructor; auto |]. simpl List.length. lia.
      * intros Hm. destruct (Hend Hm) as [Hex Htc]. split; [exact Hex|].
        rewrite E0 in Htc |- *. rewrite Htc, Htc1. lia.
Qed.

Lemma loop_monotone cfg :
  forall k (st : @Simulated.state R) ex st',
    Simulated.loop cfg k st = Done (ex, st') ->
    Simulated.n_thinking_steps st <= Simulated.n_thinking_steps st'
    /\ Simulated.thought_count st <= Simulated.thought_count st'.
Proof.
  induction k as [|k IH]; intros st ex st' Hl; [discriminate|].
  simpl in Hl.
  destruct (((Simulated.max_thinking_tokens cfg <=? Simulated.n_thinking_steps st)
             || (Simulated.max_thoughts cfg <=? Simulated.thought_count st))
            && negb (Simulated.seen_end_think st)); simpl in Hl.
  - injection Hl as <- <-. simpl. lia.
  - destruct (Simulated.switch_or_step cfg st) as [st1| |] eqn:Es; simpl in Hl;
      try discriminate.
    assert (Hc : Simulated.n_thinking_steps st <= Simulated.n_thinking_steps st1
                 /\ Simulated.thought_count st <= Simulated.thought_count st1).
    { destruct (SimulatedFacts.switch_or_step_spec _ _ _ Es) as
        [_ [[r1 [_ [sw [_ [_ [Hn Ht]]]]]] | [r1 [_ [s [_ [_ [Hn [Hw Ht]]]]]]]]]; lia. }
    destruct (Simulated.draw_natural_end cfg (Simulated.n_thinking_steps st1)
                (Simulated.seen_end_think st1) (Simulated.rng st1)) as [b r3].
    destruct b.
    + injection Hl as <- <-. simpl. exact Hc.
    + apply IH in Hl. simpl in Hl. lia.
Qed.

Lemma loop_raised cfg :
  forall k (st : @Simulated.state R) e,
    Simulated.loop cfg k st = Raised e ->
    e = "list index out of range" \/ e = "Cannot choose from an empty sequence".
Proof.
  induction k as [|k IH]; intros st e Hl; [discriminate|].
  simpl in Hl.
  destruct (_ && _); simpl in Hl; [discriminate|].
  destruct (Simulated.switch_or_step cfg st) as [st1|e1|] eqn:Es; simpl in Hl;
    try discriminate.
  - destruct (Simulated.draw_natural_end _ _ _ _) as [[|] r3]; [discriminate|].
    eapply IH; eassumption.
  - injection Hl as <-. revert Es. unfold Simulated.switch_or_step, Simulated.gen_step.
    destruct (Simulated.draw_switch _ _ _) as [[|] r1].
    + destruct (py_choice (Simulated.thought_switch_tokens cfg) r1) as [[]|e2|] eqn:Ec;
        cbn [obind]; intros He; try discriminate.
      injection He as <-. eapply py_choice_raised; eassumption.
    + destruct (py_choice Simulated.response_vocabulary r1) as [[v r2]|e2|] eqn:Ec;
        cbn [obind]; intros He; try discriminate.
      * destruct (py_choice Simulated.step_objects r2) as [[]|e3|] eqn:Ec';
          cbn [obind] in He; try discriminate.
        injection He as <-. eapply py_choice_raised; eassumption.
      * injection He as <-. eapply py_choice_raised; eassumption.
Qed.

Lemma loop_fair cfg :
  (forall n r0, 0 < n -> 0 <= fst (randbelow n r0) < n) ->
  Simulated.thought_switch_tokens cfg <> [] ->
  forall k (st : @Simulated.state R) e, Simulated.loop cfg k st <> Raised e.
Proof.
  intros Hf Hne. induction k as [|k IH]; intros st e; [discriminate|].
  simpl. destruct (_ && _); simpl; [discriminate|].
  assert (Hst : exists st1, Simulated.switch_or_step cfg st = Done st1).
  { unfold Simulated.switch_or_step, Simulated.gen_step.
    destruct (Simulated.draw_switch _ _ _) as [[|] r1].
    - destruct (py_choice_fair (Simulated.thought_switch_tokens cfg) r1 Hf Hne)
        as [x [r2 ->]]. cbn [obind]. eauto.
    - destruct (py_choice_fair Simulated.response_vocabulary r1 Hf ltac:(discriminate))
        as [v [r2 ->]]. cbn [obind].
      destruct (py_choice_fair Simulated.step_objects r2 Hf ltac:(discriminate))
        as [o [r3 ->]]. cbn [obind]. eauto. }
  destruct Hst as [st1 ->]. cbn [obind].
  destruct (Simulated.draw_natural_end _ _ _ _) as [[|] r3]; [discriminate|].
  apply IH.
Qed.

End SimLoop.

(** ** The token-id loop *)
Section PluginLoop.
Context `{Plugin.Tokenizer} {M : Type} `{Plugin.LanguageModel M} {R : Type} `{PyRandom R}.

(** Lines 102-105: a stop keeps the chunks and the count. *)
Lemma after_token_stop p (st : @Plugin.state M R) tok m' st' :
  Plugin.after_token p st tok m' = Done (Plugin.Stop, st') ->
  Plugin.response_chunks st' = Plugin.response_chunks st
  /\ Plugin.n_thinking_tokens st' = Plugin.n_thinking_tokens st.
Proof.
  unfold Plugin.after_token.
  destruct (Plugin.classify p (Plugin.seen_end_think st) (Plugin.n_thinking_tokens st) tok).
  - destruct (py_choice _ _) as [[rep r']| |]; cbn [obind]; discriminate.
  - intros Hd; injection Hd as <-. simpl. auto.
  - discriminate.
Qed.

(** The end-of-sequence id never reaches the [else] branch. *)
Lemma classify_accept_not_eos p seen n tok :
  Plugin.classify (M:=M) p seen n tok = Plugin.Accept -> tok <> Plugin.eos_token_id (M:=M).
Proof.
  unfold Plugin.classify. cbv zeta.
  destruct (tok =? Plugin.eos_token_id) eqn:E; [|intros _; now apply Z.eqb_neq].
  destruct (tok =? Plugin.end_think_id p), (n <? Plugin.min_thinking_tokens (Plugin.proc_config p)),
    (Plugin.seen_after p seen tok); simpl; discriminate.
Qed.

Lemma after_token_monotone p (st : @Plugin.state M R) tok m' b st1 :
  Plugin.after_token p st tok m' = Done (b, st1) ->
  Plugin.n_thinking_tokens st <= Plugin.n_thinking_tokens st1
  /\ (exists added, Plugin.response_chunks st1 = (Plugin.response_chunks st ++ added)%list)
  /\ (Plugin.seen_end_think st = true -> Plugin.seen_end_think st1 = true).
Proof.
  intros Ha.
  destruct (PluginFacts.after_token_flag _ _ _ _ _ _ Ha) as [_ Hs].
  assert (Hseen : Plugin.seen_end_think st = true -> Plugin.seen_end_think st1 = true)
    by (intros Ht; rewrite Hs; unfold Plugin.seen_after; rewrite Ht; reflexivity).
  destruct b.
  - destruct (PluginFacts.after_token_replace _ _ _ _ _ Ha) as [rep [_ [Hc [Hn _]]]].
    split; [lia|]. split; [eauto | exact Hseen].
  - destruct (after_token_stop _ _ _ _ _ Ha) as [Hc Hn].
    split; [lia|]. split; [exists []; rewrite app_nil_r; exact Hc | exact Hseen].
  - destruct (PluginFacts.after_token_accept _ _ _ _ _ Ha) as [Hc [Hn _]].
    split; [lia|]. split; [eauto | exact Hseen].
Qed.

(** What an iteration appends: a replacement, or the decoding of a
    sampled id other than end-of-sequence. *)
Lemma after_token_origin p (st : @Plugin.state M R) tok m' b st1 :
  Plugin.after_token p st tok m' = Done (b, st1) ->
  Forall (fun c => In c (Plugin.replacements (Plugin.proc_config p))
                   \/ exists t, t <> Plugin.eos_token_id (M:=M) /\ c = Plugin.decode [t]) (Plugin.response_chunks st) ->
  Forall (fun c => In c (Plugin.replacements (Plugin.proc_config p))
                   \/ exists t, t <> Plugin.eos_token_id (M:=M) /\ c = Plugin.decode [t]) (Plugin.response_chunks st1).
Proof.
  intros Ha Hf.
  destruct (PluginFacts.after_token_flag _ _ _ _ _ _ Ha) as [Hb _].
  destruct b.
  - destruct (PluginFacts.after_token_replace _ _ _ _ _ Ha) as [rep [Hin [Hc _]]].
    rewrite Hc. apply Forall_app. split; [exact Hf|]. constructor; [left; exact Hin | constructor].
  - destruct (after_token_stop _ _ _ _ _ Ha) as [Hc _]. rewrite Hc. exact Hf.
  - destruct (PluginFacts.after_token_accept _ _ _ _ _ Ha) as [Hc _].
    rewrite Hc. apply Forall_app. split; [exact Hf|]. constructor; [|constructor].
    right. exists tok. split; [|reflexivity].
    apply (classify_accept_not_eos p (Plugin.seen_end_think st) (Plugin.n_thinking_tokens st)).
    symmetry. exact Hb.
Qed.

Lemma loop_origin p :
  forall k (st st' : @Plugin.state M R),
    Plugin.loop p k st = Done st' ->
    Forall (fun c => In c (Plugin.replacements (Plugin.proc_config p))
                   \/ exists t, t <> Plugin.eos_token_id (M:=M) /\ c = Plugin.decode [t]) (Plugin.response_chunks st) ->
    Forall (fun c => In c (Plugin.replacements (Plugin.proc_config p))
                   \/ exists t, t <> Plugin.eos_token_id (M:=M) /\ c = Plugin.decode [t]) (Plugin.response_chunks st').
Proof.
  induction k as [|k IH]; intros st st' Hl Hf; [discriminate|].
  cbn [Plugin.loop] in Hl. unfold Plugin.step in Hl.
  destruct (Plugin.forward_sample (Plugin.model st) (Plugin.tokens st)) as [[t m']| |];
    cbn [obind] in Hl; try discriminate.
  destruct (Plugin.after_token p st t m') as [[b st1]| |] eqn:Ea; cbn [obind] in Hl;
    try discriminate.
  pose proof (after_token_origin _ _ _ _ _ _ Ea Hf) as Hf1.
  destruct b; [eapply IH; eassumption | injection Hl as <-; exact Hf1 | eapply IH; eassumption].
Qed.

Lemma step_sampled p (st : @Plugin.state M R) b st1 :
  Plugin.step p st = Done (b, st1) ->
  exists tok m', Plugin.forward_sample (Plugin.model st) (Plugin.tokens st) = Done (tok, m')
    /\ Plugin.after_token p st tok m' = Done (b, st1).
Proof.
  unfold Plugin.step.
  destruct (Plugin.forward_sample (Plugin.model st) (Plugin.tokens st)) as [[tok m']| |];
    cbn [obind]; try discriminate. eauto.
Qed.

Lemma mono_compose (a b c : @Plugin.state M R) :
  Plugin.n_thinking_tokens a <= Plugin.n_thinking_tokens b
  /\ (exists added, Plugin.response_chunks b = (Plugin.response_chunks a ++ added)%list)
  /\ (Plugin.seen_end_think a = true -> Plugin.seen_end_think b = true) ->
  Plugin.n_thinking_tokens b <= Plugin.n_thinking_tokens c
  /\ (exists added, Plugin.response_chunks c = (Plugin.response_chunks b ++ added)%list)
  /\ (Plugin.seen_end_think b = true -> Plugin.seen_end_think c = true) ->
  Plugin.n_thinking_tokens a <= Plugin.n_thinking_tokens c
  /\ (exists added, Plugin.response_chunks c = (Plugin.response_chunks a ++ added)%list)
  /\ (Plugin.seen_end_think a = true -> Plugin.seen_end_think c = true).
Proof.
  intros [Hn1 [[a1 Hc1] Hs1]] [Hn2 [[a2 Hc2] Hs2]].
  split; [lia|]. split; [|auto].
  exists (a1 ++ a2)%list. rewrite Hc2, Hc1, app_assoc. reflexivity.
Qed.

Lemma step_monotone p (st : @Plugin.state M R) b st1 :
  Plugin.step p st = Done (b, st1) ->
  Plugin.n_thinking_tokens st <= Plugin.n_thinking_tokens st1
  /\ (exists added, Plugin.response_chunks st1 = (Plugin.response_chunks st ++ added)%list)
  /\ (Plugin.seen_end_think st = true -> Plugin.seen_end_think st1 = true).
Proof.
  intros Hs. destruct (step_sampled _ _ _ _ Hs) as [tok [m' [_ Ha]]].
  exact (after_token_monotone _ _ _ _ _ _ Ha).
Qed.

Lemma reaches_monotone p (st st2 : @Plugin.state M R) :
  Plugin.reaches p st st2 ->
  Plugin.n_thinking_tokens st <= Plugin.n_thinking_tokens st2
  /\ (exists added, Plugin.response_chunks st2 = (Plugin.response_chunks st ++ added)%list)
  /\ (Plugin.seen_end_think st = true -> Plugin.seen_end_think st2 = true).
Proof.
  induction 1 as [st|st b st1 st2 Hs _ _ IH].
  - split; [lia|]. split; [exists []; symmetry; apply app_nil_r | auto].
  - exact (mono_compose _ _ _ (step_monotone _ _ _ _ Hs) IH).
Qed.

(** Lines 85-93: an end-of-sequence id that leaves the flag unset is
    replaced, and the flag stays unset. *)
Lemma eos_unseen_replace p (st : @Plugin.state M R) m' b st1 :
  Plugin.seen_after p (Plugin.seen_end_think st) (Plugin.eos_token_id (M:=M)) = false ->
  Plugin.after_token p st (Plugin.eos_token_id (M:=M)) m' = Done (b, st1) ->
  b = Plugin.Replace /\ Plugin.seen_end_think st1 = false.
Proof.
  intros Hsa Ha.
  destruct (PluginFacts.after_token_flag _ _ _ _ _ _ Ha) as [Hb Hs1].
  split; [|congruence].
  rewrite Hb. unfold Plugin.classify. cbv zeta. rewrite Hsa, Z.eqb_refl.
  rewrite orb_true_r. reflexivity.
Qed.

(** A model that never samples the end-think id leaves the flag unset
    along the loop. *)
Lemma reaches_unseen p :
  (forall (m : M) ids t m', Plugin.forward_sample m ids = Done (t, m') ->
                            t <> Plugin.end_think_id p) ->
  forall (st st0 : @Plugin.state M R),
    Plugin.reaches p st st0 -> Plugin.seen_end_think st = false -> Plugin.seen_end_think st0 = false.
Proof.
  intros Hm st st0. induction 1 as [st|st b st1 st2 Hs _ _ IH]; intros Hst; [exact Hst|].
  apply IH. destruct (step_sampled _ _ _ _ Hs) as [tok [m' [Ef Ha]]].
  destruct (PluginFacts.after_token_flag _ _ _ _ _ _ Ha) as [_ Hs1].
  rewrite Hs1. unfold Plugin.seen_after. rewrite Hst. apply Z.eqb_neq. exact (Hm _ _ _ _ Ef).
Qed.

Lemma py_index_past {A} (l : list A) i :
  0 <= i -> Z.of_nat (List.length l) <= i -> py_index l i = None.
Proof.
  intros Hlo Hhi. unfold py_index.
  replace (0 <=? i) with true by (symmetry; apply Z.leb_le; lia).
  replace (i <? Z.of_nat (List.length l)) with false by (symmetry; apply Z.ltb_ge; lia).
  replace (i <? 0) with false by (symmetry; apply Z.ltb_ge; lia).
  rewrite !andb_false_r. reflexivity.
Qed.

End PluginLoop.

(** ** Properties *)
Section Properties.
Context `{Plugin.Tokenizer} {M : Type} `{Plugin.LanguageModel M} {R : Type} `{PyRandom R}.

(** X1. No reasoning step is ever generated by the simulated variant:
    [n_thinking_steps] stays 0, every element between the opening text
    and the end marker is a thought switch token, and their number is the
    increase of [thought_count]. *)
Theorem sim_buffer_only_switches (p : Simulated.processor) msgs (r : R) text st :
  Simulated.reasoning_buffer p msgs r = Done (text, st) ->
  Simulated.n_thinking_steps st = 0
  /\ exists mid,
       text = Simulated.initial_text (Simulated.proc_config p)
              :: (mid ++ [Simulated.end_think_token (Simulated.proc_config p)])%list
       /\ Forall (fun x => In x (Simulated.thought_switch_tokens (Simulated.proc_config p))) mid
       /\ Z.of_nat (List.length mid) = Simulated.thought_count st - Simulated.proc_thought_count p.
Proof.
  unfold Simulated.reasoning_buffer.
  match goal with |- context [Simulated.loop ?c ?f ?s0] =>
    destruct (Simulated.loop c f s0) as [[ex st1]| |] eqn:El end;
    cbn [obind]; try discriminate.
  pose proof (SimulatedFacts.loop_shape _ _ _ _ _ El eq_refl) as [Hs _].
  destruct (loop_from_zero _ _ _ _ _ El eq_refl eq_refl) as [Hn [[mid [Ht [Hf Hl]]] _]].
  rewrite Hs. intros Hd; injection Hd as <- <-.
  split; [exact Hn|]. exists mid. simpl in Ht, Hl. auto.
Qed.

(** X2. With [min_thinking_tokens > 0] the simulated run always ends by
    force. When [max_thinking_tokens > 0] it inserts
    [max_thoughts - thought_count] thought switches (none when that is
    negative) and [thought_count] ends at [max(thought_count, max_thoughts)];
    when [max_thinking_tokens <= 0] it inserts none and [thought_count] is
    unchanged. *)
Theorem sim_switch_count (p : Simulated.processor) msgs (r : R) text st :
  0 < Simulated.min_thinking_tokens (Simulated.proc_config p) ->
  Simulated.reasoning_buffer p msgs r = Done (text, st) ->
  let cfg := Simulated.proc_config p in
  Simulated.thought_count st
    = (if Simulated.max_thinking_tokens cfg <=? 0 then Simulated.proc_thought_count p
       else Z.max (Simulated.proc_thought_count p) (Simulated.max_thoughts cfg))
  /\ List.length text
     = (2 + if (Simulated.max_thinking_tokens cfg <=? 0)%Z then 0
            else Z.to_nat (Simulated.max_thoughts cfg - Simulated.proc_thought_count p))%nat.
Proof.
  intros Hm Hb cfg. subst cfg.
  revert Hb. unfold Simulated.reasoning_buffer.
  match goal with |- context [Simulated.loop ?c ?f ?s0] =>
    destruct (Simulated.loop c f s0) as [[ex st1]| |] eqn:El end;
    cbn [obind]; try discriminate.
  pose proof (SimulatedFacts.loop_shape _ _ _ _ _ El eq_refl) as [Hs _].
  destruct (loop_from_zero _ _ _ _ _ El eq_refl eq_refl) as [_ [[mid [Ht [_ Hl]]] Hend]].
  destruct (Hend Hm) as [_ Htc]. simpl in Ht, Hl, Htc.
  rewrite Hs. intros Hd; injection Hd as <- <-.
  split; [exact Htc|]. rewrite Ht. simpl. rewrite length_app. simpl.
  destruct (Simulated.max_thinking_tokens (Simulated.proc_config p) <=? 0); lia.
Qed.

(** X3. The simulated loop never decreases [n_thinking_steps] or
    [thought_count]. *)
Theorem sim_counters_monotone cfg k (st : @Simulated.state R) ex st' :
  Simulated.loop cfg k st = Done (ex, st') ->
  Simulated.n_thinking_steps st <= Simulated.n_thinking_steps st'
  /\ Simulated.thought_count st <= Simulated.thought_count st'.
Proof. apply loop_monotone. Qed.

(** X4. When [start_think_token] starts and [end_think_token] ends with
    an ASCII character that is not whitespace, [strip()] removes nothing:
    the response
    is [start_think_token + "\n" + prefill + " "], the joined middle, and
    [end_think_token] at its very end. *)
Theorem sim_response_markers (p : Simulated.processor) msgs (r : R) s c0 rest0 front e :
  Simulated.reasoning_effort p msgs r = Done s ->
  Simulated.start_think_token (Simulated.proc_config p) = String c0 rest0 ->
  (nat_of_ascii c0 < 128)%nat -> py_isspace [c0] = false ->
  list_ascii_of_string (Simulated.end_think_token (Simulated.proc_config p)) = (front ++ [e])%list ->
  (nat_of_ascii e < 128)%nat -> py_isspace [e] = false ->
  exists middle,
    s = Simulated.initial_text (Simulated.proc_config p) ++ " " ++ middle
        ++ Simulated.end_think_token (Simulated.proc_config p).
Proof.
  intros Hr Hst Ha0 Hc0 Hend Ha He.
  unfold Simulated.reasoning_effort in Hr.
  destruct (Simulated.reasoning_buffer p msgs r) as [[text st]| |] eqn:Eb;
    cbn [obind] in Hr; try discriminate.
  injection Hr as <-.
  destruct (SimulatedFacts.reasoning_buffer_shape _ _ _ _ _ Eb) as [_ [mid [Ht _]]].
  subst text.
  set (cfg := Simulated.proc_config p) in *.
  destruct (py_join_snoc " " mid (Simulated.end_think_token cfg)) as [m Hm].
  assert (Hj : py_join " " (Simulated.initial_text cfg :: (mid ++ [Simulated.end_think_token cfg])%list)
               = Simulated.initial_text cfg ++ " " ++ m ++ Simulated.end_think_token cfg).
  { rewrite py_join_cons_ne, Hm; [reflexivity|].
    intros Hn. apply app_eq_nil in Hn as [_ Hn]. discriminate. }
  rewrite Hj. exists m.
  apply (py_strip_id _ c0
           (list_ascii_of_string
              ((rest0 ++ String (ascii_of_nat 10) EmptyString ++ Simulated.prefill cfg)
               ++ " " ++ m ++ Simulated.end_think_token cfg))
           (list_ascii_of_string (Simulated.initial_text cfg ++ " " ++ m) ++ front)%list e);
    [| exact Ha0 | exact Hc0 | | exact Ha | exact He].
  - unfold Simulated.initial_text. rewrite Hst. reflexivity.
  - replace (Simulated.initial_text cfg ++ " " ++ m ++ Simulated.end_think_token cfg)
      with ((Simulated.initial_text cfg ++ " " ++ m) ++ Simulated.end_think_token cfg)
      by (rewrite !str_app_assoc; reflexivity).
    rewrite list_ascii_of_string_app, Hend, app_assoc. reflexivity.
Qed.

(** X5. [thinkdeeper_decode] raises [max() arg is an empty sequence]
    exactly when the resolved [thought_switch_tokens] is empty; the loop
    can raise nothing else than the two errors of [random.choice]. *)
Theorem sim_decode_empty_switches :
  (forall messages rq (r : R),
     Simulated.thinkdeeper_decode messages rq r = Raised "max() arg is an empty sequence"
     <-> Simulated.thought_switch_tokens (Simulated.resolve rq) = [])
  /\ (forall cfg k (st : @Simulated.state R) e,
        Simulated.loop cfg k st = Raised e ->
        e = "list index out of range" \/ e = "Cannot choose from an empty sequence").
Proof.
  split; [intros messages rq r; split | exact loop_raised].
  - unfold Simulated.thinkdeeper_decode, Simulated.init.
    destruct (Simulated.thought_switch_tokens (Simulated.resolve rq)) as [|t ts] eqn:Et;
      [reflexivity|].
    cbn [py_max map obind]. unfold Simulated.reasoning_effort, Simulated.reasoning_buffer.
    match goal with |- context [Simulated.loop ?c ?f ?s0] =>
      destruct (Simulated.loop c f s0) as [[ex st1]|e1|] eqn:El end;
      cbn [obind]; try discriminate.
    intros He. injection He as ->.
    apply loop_raised in El as [He|He]; discriminate.
  - intros He. unfold Simulated.thinkdeeper_decode, Simulated.init. rewrite He. reflexivity.
Qed.

(** X6. With a generator whose [_randbelow(n)] stays in [[0, n)],
    [thinkdeeper_decode] returns a response for every request whose
    [thought_switch_tokens] is not empty. *)
Theorem sim_decode_total messages rq (r : R) :
  (forall n r0, 0 < n -> 0 <= fst (randbelow n r0) < n) ->
  Simulated.thought_switch_tokens (Simulated.resolve rq) <> [] ->
  exists s, Simulated.thinkdeeper_decode messages rq r = Done s.
Proof.
  intros Hf Hne.
  unfold Simulated.thinkdeeper_decode, Simulated.init.
  destruct (Simulated.thought_switch_tokens (Simulated.resolve rq)) as [|t ts] eqn:Et;
    [congruence|].
  cbn [py_max map obind]. unfold Simulated.reasoning_effort, Simulated.reasoning_buffer.
  match goal with |- context [Simulated.loop ?c ?f ?s0] =>
    destruct (Simulated.loop c f s0) as [[ex st1]|e1|] eqn:El end;
    cbn [obind].
  - eauto.
  - exfalso. revert El. apply loop_fair; [exact Hf|]. simpl. rewrite Et. discriminate.
  - exfalso. revert El. apply SimulatedFacts.loop_not_out_of_fuel; simpl; [reflexivity|].
    unfold Simulated.fuel. simpl. rewrite Z.sub_0_r. lia.
Qed.

(** X7. When every thought switch token is blank ([t.split()] empty),
    [max_sequence_length] is 0 and the slice [current_text[-0:]] is the
    whole list: [is_thought_switch] then searches the whole buffer. *)
Theorem is_thought_switch_blank_tokens cfg p text chunk :
  Simulated.init cfg = Done p ->
  forallb (fun t => word_count t =? 0) (Simulated.thought_switch_tokens cfg) = true ->
  Simulated.is_thought_switch p text chunk
  = existsb (fun switch => py_contains switch (py_join " " text))
            (Simulated.thought_switch_tokens cfg).
Proof.
  unfold Simulated.init.
  destruct (Simulated.thought_switch_tokens cfg) as [|t ts] eqn:Et; [discriminate|].
  cbn [py_max map obind]. intros Hd Hb. injection Hd as <-.
  cbn [forallb] in Hb. apply andb_true_iff in Hb as [Ht Hts]. apply Z.eqb_eq in Ht.
  assert (Hz : fold_left Z.max (map word_count ts) (word_count t) = 0).
  { rewrite Ht. clear Ht Et. induction ts as [|u ts IH]; [reflexivity|].
    cbn [forallb] in Hts. apply andb_true_iff in Hts as [Hu Hts]. apply Z.eqb_eq in Hu.
    cbn [map fold_left]. rewrite Hu. exact (IH Hts). }
  unfold Simulated.is_thought_switch.
  cbn [Simulated.max_sequence_length Simulated.proc_config]. rewrite Hz, Et.
  replace (py_slice_from text (- 0)) with text; [reflexivity|].
  unfold py_slice_from. simpl (- 0). rewrite Z.ltb_irrefl.
  replace (Z.to_nat (Z.min 0 (Z.of_nat (List.length text)))) with 0%nat by lia.
  reflexivity.
Qed.

(** X8. A thought switch token that is one of the last
    [max_sequence_length] entries of [current_text] is always detected by
    [is_thought_switch]. *)
Theorem is_thought_switch_recent (p : Simulated.processor) pre post sw chunk :
  (List.length post <= Z.to_nat (Simulated.max_sequence_length p))%nat ->
  In sw post ->
  In sw (Simulated.thought_switch_tokens (Simulated.proc_config p)) ->
  Simulated.is_thought_switch p (pre ++ post)%list chunk = true.
Proof.
  intros Hlen Hin Hsw. unfold Simulated.is_thought_switch.
  apply existsb_exists. exists sw. split; [exact Hsw|].
  apply py_contains_join.
  destruct post as [|x post']; [contradiction|].
  set (k := Simulated.max_sequence_length p) in *.
  assert (Hk : 0 < k) by (simpl in Hlen; lia).
  unfold py_slice_from.
  replace (- k <? 0) with true by (symmetry; apply Z.ltb_lt; lia).
  rewrite skipn_app, length_app.
  replace (Z.to_nat (Z.max (Z.of_nat (List.length pre + List.length (x :: post')) + - k) 0)
           - List.length pre)%nat with 0%nat by (simpl in Hlen |- *; lia).
  apply in_or_app. right. exact Hin.
Qed.

(** X9. If the model can never sample the end-of-sequence id, the
    token-id loop never returns: it runs until the model raises, or for
    ever. *)
Theorem plugin_no_stop_without_eos (p : Plugin.processor) :
  (forall (m : M) ids t m', Plugin.forward_sample m ids = Done (t, m') ->
                            t <> Plugin.eos_token_id (M:=M)) ->
  forall k (st : @Plugin.state M R),
    Plugin.loop p k st = OutOfFuel \/ exists e, Plugin.loop p k st = Raised e.
Proof.
  intros Hm. induction k as [|k IH]; intros st; [left; reflexivity|].
  cbn [Plugin.loop]. unfold Plugin.step.
  destruct (Plugin.forward_sample (Plugin.model st) (Plugin.tokens st)) as [[t m']|e|] eqn:Ef;
    cbn [obind]; [| right; eauto | left; reflexivity].
  destruct (Plugin.after_token p st t m') as [[b st1]|e|] eqn:Ea;
    cbn [obind]; [| right; eauto | left; reflexivity].
  destruct (PluginFacts.after_token_flag _ _ _ _ _ _ Ea) as [Hb _].
  destruct b; [apply IH | | apply IH].
  exfalso. symmetry in Hb. apply PluginFacts.classify_stop in Hb as [_ Ht].
  exact (Hm _ _ _ _ Ef Ht).
Qed.

(** X10. If the model can never sample the end-think id, a loop started
    with [seen_end_think] false never returns, even when the model samples
    end-of-sequence: at every iteration the flag is still false, and an
    end-of-sequence sampled there is replaced. *)
Theorem plugin_no_stop_without_end_id (p : Plugin.processor) :
  (forall (m : M) ids t m', Plugin.forward_sample m ids = Done (t, m') ->
                            t <> Plugin.end_think_id p) ->
  forall (st : @Plugin.state M R),
    Plugin.seen_end_think st = false ->
    (forall k, Plugin.loop p k st = OutOfFuel \/ exists e, Plugin.loop p k st = Raised e)
    /\ (forall st0, Plugin.reaches p st st0 ->
          Plugin.seen_end_think st0 = false
          /\ forall m' b st1,
               Plugin.forward_sample (Plugin.model st0) (Plugin.tokens st0)
                 = Done (Plugin.eos_token_id (M:=M), m') ->
               Plugin.after_token p st0 (Plugin.eos_token_id (M:=M)) m' = Done (b, st1) ->
               b = Plugin.Replace).
Proof.
  intros Hm st0 Hs0. split.
  2:{ intros st Hr. pose proof (reaches_unseen p Hm _ _ Hr Hs0) as Hs.
      split; [exact Hs|]. intros m' b st1 Ef Ha.
      refine (proj1 (eos_unseen_replace p st m' b st1 _ Ha)).
      unfold Plugin.seen_after. rewrite Hs. apply Z.eqb_neq. exact (Hm _ _ _ _ Ef). }
  intros k. revert st0 Hs0.
  induction k as [|k IH]; intros st Hs; [left; reflexivity|].
  cbn [Plugin.loop]. unfold Plugin.step.
  destruct (Plugin.forward_sample (Plugin.model st) (Plugin.tokens st)) as [[t m']|e|] eqn:Ef;
    cbn [obind]; [| right; eauto | left; reflexivity].
  destruct (Plugin.after_token p st t m') as [[b st1]|e|] eqn:Ea;
    cbn [obind]; [| right; eauto | left; reflexivity].
  destruct (PluginFacts.after_token_flag _ _ _ _ _ _ Ea) as [Hb Hs1].
  assert (Hsa : Plugin.seen_after p (Plugin.seen_end_think st) t = false).
  { unfold Plugin.seen_after. rewrite Hs. apply Z.eqb_neq. exact (Hm _ _ _ _ Ef). }
  destruct b; [apply IH; congruence | | apply IH; congruence].
  exfalso. symmetry in Hb. apply PluginFacts.classify_stop in Hb as [Ht _]. congruence.
Qed.

(** X11. At every iteration of the token-id loop [n_thinking_tokens]
    does not decrease, [response_chunks] is only appended to, and
    [seen_end_think] is not reset; hence also from the start to any later
    iteration and to the state the loop returns. *)
Theorem plugin_loop_monotone (p : Plugin.processor) :
  (forall (st st1 : @Plugin.state M R) b,
     Plugin.step p st = Done (b, st1) ->
     Plugin.n_thinking_tokens st <= Plugin.n_thinking_tokens st1
  /\ (exists added, Plugin.response_chunks st1 = (Plugin.response_chunks st ++ added)%list)
  /\ (Plugin.seen_end_think st = true -> Plugin.seen_end_think st1 = true))
  /\ (forall (st st2 : @Plugin.state M R),
        Plugin.reaches p st st2 ->
        Plugin.n_thinking_tokens st <= Plugin.n_thinking_tokens st2
  /\ (exists added, Plugin.response_chunks st2 = (Plugin.response_chunks st ++ added)%list)
  /\ (Plugin.seen_end_think st = true -> Plugin.seen_end_think st2 = true))
  /\ (forall k (st st' : @Plugin.state M R),
        Plugin.loop p k st = Done st' ->
        Plugin.n_thinking_tokens st <= Plugin.n_thinking_tokens st'
  /\ (exists added, Plugin.response_chunks st' = (Plugin.response_chunks st ++ added)%list)
  /\ (Plugin.seen_end_think st = true -> Plugin.seen_end_think st' = true)).
Proof.
  split; [|split].
  - intros st st1 b. apply step_monotone.
  - intros st st2. apply reaches_monotone.
  - intros k st st' Hl.
    destruct (PluginFacts.loop_stop_step _ _ _ _ Hl) as [st0 [m' [Hr [_ [_ Hs]]]]].
    exact (mono_compose _ _ _ (reaches_monotone _ _ _ Hr) (step_monotone _ _ _ _ Hs)).
Qed.

(** X12. Every chunk of a token-id run's response is a replacement phrase
    or the decoding of one sampled id that is not end-of-sequence:
    end-of-sequence is never decoded into it. *)
Theorem plugin_chunks_origin (p : Plugin.processor) k question (m : M) (r : R) st' :
  Plugin.loop p k (Plugin.initial_state p question m r) = Done st' ->
  Forall (fun c => In c (Plugin.replacements (Plugin.proc_config p))
                   \/ exists t, t <> Plugin.eos_token_id (M:=M) /\ c = Plugin.decode [t])
         (Plugin.response_chunks st').
Proof.
  intros Hl. apply (loop_origin _ _ _ _ Hl). constructor.
Qed.

(** X13. An end-think id sampled once [n_thinking_tokens >=
    min_thinking_tokens] is kept: it is decoded into the buffer and sets
    [seen_end_think] (when it differs from the end-of-sequence id). *)
Theorem plugin_end_kept_above_min (p : Plugin.processor) (st : @Plugin.state M R) tok m' :
  tok = Plugin.end_think_id p ->
  tok <> Plugin.eos_token_id (M:=M) ->
  Plugin.min_thinking_tokens (Plugin.proc_config p) <= Plugin.n_thinking_tokens st ->
  exists st', Plugin.after_token p st tok m' = Done (Plugin.Accept, st')
    /\ Plugin.response_chunks st' = (Plugin.response_chunks st ++ [Plugin.decode [tok]])%list
    /\ Plugin.n_thinking_tokens st' = Plugin.n_thinking_tokens st + 1
    /\ Plugin.seen_end_think st' = true.
Proof.
  intros Ht He Hn.
  assert (Hc : Plugin.classify p (Plugin.seen_end_think st) (Plugin.n_thinking_tokens st) tok
               = Plugin.Accept).
  { unfold Plugin.classify, Plugin.seen_after. subst tok. rewrite Z.eqb_refl.
    replace (Plugin.end_think_id p =? Plugin.eos_token_id) with false
      by (symmetry; apply Z.eqb_neq; exact He).
    replace (Plugin.n_thinking_tokens st <? Plugin.min_thinking_tokens (Plugin.proc_config p))
      with false by (symmetry; apply Z.ltb_ge; exact Hn).
    reflexivity. }
  unfold Plugin.after_token. rewrite Hc.
  eexists. split; [reflexivity|]. cbn.
  split; [reflexivity|]. split; [reflexivity|].
  unfold Plugin.seen_after. rewrite Ht, Z.eqb_refl. apply orb_true_r.
Qed.

(** X14. An end-of-sequence id sampled before any end-think id is
    replaced whatever [n_thinking_tokens] is, and [seen_end_think] stays
    false. *)
Theorem plugin_eos_before_end_replaced (p : Plugin.processor) (st : @Plugin.state M R) tok m' b st' :
  tok = Plugin.eos_token_id (M:=M) ->
  tok <> Plugin.end_think_id p ->
  Plugin.seen_end_think st = false ->
  Plugin.after_token p st tok m' = Done (b, st') ->
  b = Plugin.Replace /\ Plugin.seen_end_think st' = false.
Proof.
  intros Ht Hne Hs Ha. subst tok.
  apply (eos_unseen_replace p st m' b st'); [|exact Ha].
  unfold Plugin.seen_after. rewrite Hs. apply Z.eqb_neq. exact Hne.
Qed.

(** X15. When the encoding of [start_think_token + end_think_token] has
    fewer than three ids, [run] returns the [IndexError] text with 0
    completion tokens, before the model is used. *)
Theorem plugin_run_short_marker_encoding fuel question rq (m : M) (r : R) :
  (List.length (Plugin.encode (Plugin.start_think_token (Plugin.resolve rq)
                               ++ Plugin.end_think_token (Plugin.resolve rq))) < 3)%nat ->
  Plugin.run fuel question rq m r = Done (Plugin.error_prefix ++ "list index out of range", 0).
Proof.
  intros Hlen. unfold Plugin.run, Plugin.init.
  rewrite (py_index_past _ 2) by lia.
  destruct (py_index _ 1); reflexivity.
Qed.

End Properties.

Import Toy.

Lemma sim_buffer_only_switches_witness :
  exists text st, Simulated.reasoning_buffer (R:=Script) sim_proc_small None [0; 0; 0; 0]
                    = Done (text, st)
                  /\ Simulated.n_thinking_steps st = 0.
Proof.
  do 2 eexists. split; [lazy; reflexivity|].
  refine (proj1 (sim_buffer_only_switches (R:=Script) sim_proc_small None [0; 0; 0; 0] _ _ _)).
  lazy; reflexivity.
Defined.

Lemma sim_switch_count_witness :
  exists text st, Simulated.reasoning_buffer (R:=Script) sim_proc_small None []
                    = Done (text, st)
                  /\ List.length text = 4%nat.
Proof.
  do 2 eexists. split; [lazy; reflexivity|].
  refine (proj2 (sim_switch_count (R:=Script) sim_proc_small None [] _ _ _ _));
    [lazy; reflexivity | lazy; reflexivity].
Defined.

Lemma sim_counters_monotone_witness :
  exists ex st', Simulated.loop (R:=Script) (Simulated.proc_config sim_proc_small) 5%nat
                   (sim_state0 []) = Done (ex, st')
                 /\ Simulated.thought_count (sim_state0 []) <= Simulated.thought_count st'.
Proof.
  do 2 eexists. split; [lazy; reflexivity|].
  refine (proj2 (sim_counters_monotone (R:=Script) (Simulated.proc_config sim_proc_small) 5%nat
                   (sim_state0 []) _ _ _)).
  lazy; reflexivity.
Defined.

Lemma sim_response_markers_witness :
  exists s, Simulated.reasoning_effort (R:=Script) sim_proc_small None [] = Done s
    /\ exists middle,
         s = Simulated.initial_text (Simulated.proc_config sim_proc_small) ++ " " ++ middle
             ++ Simulated.end_think_token (Simulated.proc_config sim_proc_small).
Proof.
  eexists. split; [lazy; reflexivity|].
  refine (sim_response_markers (R:=Script) sim_proc_small None [] _ "<"%char "think>"
            (list_ascii_of_string "</think") ">"%char _ _ _ _ _ _ _);
    lazy; [reflexivity | reflexivity | | reflexivity | reflexivity | | reflexivity];
    apply Nat.ltb_lt; reflexivity.
Defined.

Lemma sim_decode_total_witness :
  exists s, Simulated.thinkdeeper_decode (R:=Counter) None (Some sim_req_min_above_max) 0
            = Done s.
Proof.
  apply (sim_decode_total (R:=Counter)).
  - intros n c Hn. simpl. apply Z.mod_pos_bound. exact Hn.
  - lazy. discriminate.
Defined.

Lemma is_thought_switch_blank_tokens_witness :
  Simulated.is_thought_switch
    {| Simulated.proc_config := sim_cfg_blank; Simulated.proc_thought_count := 0;
       Simulated.max_sequence_length := 0 |}
    ["<think>"; "Wait,"; "</think>"] ""
  = existsb (fun switch => py_contains switch (py_join " " ["<think>"; "Wait,"; "</think>"]))
            [" "].
Proof.
  apply (is_thought_switch_blank_tokens sim_cfg_blank); lazy; reflexivity.
Defined.

Lemma is_thought_switch_recent_witness :
  Simulated.is_thought_switch sim_proc_small
    ([Simulated.initial_text Simulated.DEFAULT_CONFIG] ++ ["Wait,"])%list "" = true.
Proof.
  apply (is_thought_switch_recent sim_proc_small _ ["Wait,"] "Wait,").
  - lazy. lia.
  - left. reflexivity.
  - left. reflexivity.
Defined.

Lemma sim_decode_empty_switches_witness :
  exists e, Simulated.loop (R:=Script) Simulated.DEFAULT_CONFIG 20%nat (sim_state0 [0; 5]) = Raised e
            /\ (e = "list index out of range" \/ e = "Cannot choose from an empty sequence").
Proof.
  eexists. split; [lazy; reflexivity|].
  refine (proj2 (sim_decode_empty_switches (R:=Script)) Simulated.DEFAULT_CONFIG 20%nat
            (sim_state0 [0; 5]) _ _).
  lazy; reflexivity.
Defined.

Lemma plugin_no_stop_without_eos_witness :
  Plugin.loop (M:=Babbler) (R:=Script) (proc_default 1) 3%nat
    (Plugin.initial_state (proc_default 1) "" babbler []) = OutOfFuel
  \/ exists e, Plugin.loop (M:=Babbler) (R:=Script) (proc_default 1) 3%nat
                 (Plugin.initial_state (proc_default 1) "" babbler []) = Raised e.
Proof.
  apply (plugin_no_stop_without_eos (M:=Babbler) (R:=Script)).
  intros m ids t m' Hd. simpl in Hd. injection Hd. intros. subst. discriminate.
Defined.

Lemma plugin_no_stop_without_end_id_witness :
  Plugin.loop (M:=Babbler) (R:=Script) (proc_default 1) 3%nat
    (Plugin.initial_state (proc_default 1) "" babbler []) = OutOfFuel
  \/ exists e, Plugin.loop (M:=Babbler) (R:=Script) (proc_default 1) 3%nat
                 (Plugin.initial_state (proc_default 1) "" babbler []) = Raised e.
Proof.
  refine (proj1 (plugin_no_stop_without_end_id (M:=Babbler) (R:=Script) (proc_default 1) _
                   (Plugin.initial_state (proc_default 1) "" babbler []) eq_refl) 3%nat).
  intros m ids t m' Hd. simpl in Hd. injection Hd. intros. subst. discriminate.
Defined.

Lemma plugin_loop_monotone_witness :
  exists st', Plugin.loop (M:=Replay) (R:=Script) (proc_default 1) 10%nat
                (Plugin.initial_state (proc_default 1) "" [72; 1001; 2] [0]) = Done st'
              /\ 0 <= Plugin.n_thinking_tokens st'.
Proof.
  eexists. split; [lazy; reflexivity|].
  refine (proj1 (proj2 (proj2 (plugin_loop_monotone (M:=Replay) (R:=Script) (proc_default 1)))
                   10%nat (Plugin.initial_state (proc_default 1) "" [72; 1001; 2] [0]) _ _)).
  lazy; reflexivity.
Defined.

Lemma plugin_chunks_origin_witness :
  exists st', Plugin.loop (M:=Replay) (R:=Script) (proc_default 1) 10%nat
                (Plugin.initial_state (proc_default 1) "" [72; 1001; 2] [0]) = Done st'
              /\ Forall (fun c => In c (Plugin.replacements (Plugin.proc_config (proc_default 1)))
                                  \/ exists t, t <> 2 /\ c = Plugin.decode [t])
                        (Plugin.response_chunks st').
Proof.
  eexists. split; [lazy; reflexivity|].
  refine (plugin_chunks_origin (M:=Replay) (R:=Script) (proc_default 1) 10%nat ""
            [72; 1001; 2] [0] _ _).
  lazy; reflexivity.
Defined.

Lemma plugin_end_kept_above_min_witness :
  exists st', Plugin.after_token (M:=Replay) (R:=Script) (proc_default 0) plugin_state0 1001 [2]
                = Done (Plugin.Accept, st')
              /\ Plugin.seen_end_think st' = true.
Proof.
  assert (Hk : exists st', Plugin.after_token (M:=Replay) (R:=Script) (proc_default 0)
                            plugin_state0 1001 [2] = Done (Plugin.Accept, st')
                          /\ Plugin.response_chunks st'
                             = (Plugin.response_chunks plugin_state0 ++ [Plugin.decode [1001]])%list
                          /\ Plugin.n_thinking_tokens st' = Plugin.n_thinking_tokens plugin_state0 + 1
                          /\ Plugin.seen_end_think st' = true).
  { apply (plugin_end_kept_above_min (M:=Replay) (R:=Script)); lazy; [reflexivity | discriminate | discriminate]. }
  destruct Hk as [st' [Ha [_ [_ Hs]]]].
  exists st'. split; assumption.
Defined.

Lemma plugin_eos_before_end_replaced_witness :
  exists b st', Plugin.after_token (M:=Replay) (R:=Script) (proc_default 1) plugin_state0 2 []
                  = Done (b, st')
                /\ b = Plugin.Replace.
Proof.
  do 2 eexists. split; [lazy; reflexivity|].
  refine (proj1 (plugin_eos_before_end_replaced (M:=Replay) (R:=Script) (proc_default 1)
                   plugin_state0 2 [] _ _ _ _ _ _)); lazy; try reflexivity; discriminate.
Defined.

Lemma plugin_run_short_marker_encoding_witness :
  Plugin.run (M:=Replay) (R:=Script) 10%nat "2+2" (Some req_no_markers) [72] [0]
  = Done (Plugin.error_prefix ++ "list index out of range", 0).
Proof.
  apply (plugin_run_short_marker_encoding (M:=Replay) (R:=Script)).
  apply Nat.ltb_lt. reflexivity.
Defined.

End Extras.
